(** * sinter [_data/_csv_out.py]: the CSV row formatter

    A shallow embedding of [escape_csv], [csv_line] and [CSV_HEADER], with
    the parts of the Python runtime they call ([csv.writer], [str.strip],
    [str.rjust], [json.dumps], [int], [str], float formatting), followed by
    the properties of the row format.

    Conventions.
    - A Python [str] is a Rocq [string]; the character with code [n]
      denotes the code point U+00[n] (the Latin-1 range).
    - A Python [int] is a [Z]; the interpreter's optional limit on the
      number of digits of an int/str conversion is taken as switched off.
    - A Python [float] is a [spec_float] (sign, mantissa, exponent of a
      binary64 number, or zero, infinity, NaN).
    - A [dict] is an insertion-ordered association list with [str] keys;
      [collections.Counter] is a [dict] subclass and is the same [VDict].
    - Arguments are separate objects.  The one statement of the module that
      writes through a reference is [custom_counts[k] = ...]; the state of
      that object after the call is part of the result of [csv_line]. *)

From Stdlib Require Import ZArith List Bool Ascii String Lia.
From Stdlib Require Import Permutation Sorted OrderedTypeEx.
From Stdlib Require Import Floats.SpecFloat.
Import ListNotations.

Local Open Scope string_scope.
Local Open Scope Z_scope.

(** ** Characters and strings *)

Module Str.

Definition comma : ascii := ","%char.
Definition dquote : ascii := Ascii.ascii_of_nat 34.
Definition squote : ascii := Ascii.ascii_of_nat 39.
Definition backslash : ascii := Ascii.ascii_of_nat 92.
Definition space : ascii := " "%char.
Definition CR : ascii := Ascii.ascii_of_nat 13.
Definition LF : ascii := Ascii.ascii_of_nat 10.

Definition code (c : ascii) : Z := Z.of_nat (Ascii.nat_of_ascii c).

(** [str.isspace] on one code point below U+0100: the characters with
    bidirectional type WS, B or S, or category Zs. *)
Definition is_space (c : ascii) : bool :=
  let n := code c in
  ((9 <=? n) && (n <=? 13)) || ((28 <=? n) && (n <=? 32))
  || (n =? 133) || (n =? 160).

Fixpoint lstrip (s : string) : string :=
  match s with
  | String c r => if is_space c then lstrip r else s
  | EmptyString => EmptyString
  end.

(** The text without its trailing white space; [rstrip] keeps a character
    when it is not white space or when something is kept after it. *)
Fixpoint rstrip (s : string) : string :=
  match s with
  | String c r =>
      match rstrip r with
      | EmptyString => if is_space c then EmptyString else String c EmptyString
      | r' => String c r'
      end
  | EmptyString => EmptyString
  end.

(** [s.strip()] *)
Definition strip (s : string) : string := rstrip (lstrip s).

Fixpoint spaces (n : nat) : string :=
  match n with
  | O => EmptyString
  | S k => String space (spaces k)
  end.

Definition len (s : string) : Z := Z.of_nat (String.length s).

(** [s.rjust(width)] *)
Definition rjust (s : string) (width : Z) : string :=
  spaces (Z.to_nat (width - len s)) ++ s.

(** [sep.join(parts)] *)
Fixpoint join (sep : string) (parts : list string) : string :=
  match parts with
  | [] => EmptyString
  | [p] => p
  | p :: ps => p ++ sep ++ join sep ps
  end.

Fixpoint mem (c : ascii) (s : string) : bool :=
  match s with
  | String d r => Ascii.eqb c d || mem c r
  | EmptyString => false
  end.

Fixpoint last_char (s : string) : option ascii :=
  match s with
  | EmptyString => None
  | String c EmptyString => Some c
  | String _ r => last_char r
  end.

Definition digit_char (d : Z) : ascii := Ascii.ascii_of_nat (48 + Z.to_nat d).

Definition is_digit (c : ascii) : bool := (48 <=? code c) && (code c <=? 57).

Fixpoint dec_digits (fuel : nat) (n : Z) (acc : string) : string :=
  match fuel with
  | O => acc
  | S f =>
      let acc' := String (digit_char (n mod 10)) acc in
      if n / 10 =? 0 then acc' else dec_digits f (n / 10) acc'
  end.

(** Decimal digits of a natural number, no leading zero. *)
Definition of_nat_Z (n : Z) : string :=
  dec_digits (S (Z.to_nat (Z.log2 n))) n EmptyString.

(** [str(n)] for an [int]. *)
Definition of_Z (n : Z) : string :=
  if n <? 0 then String "-" (of_nat_Z (- n)) else of_nat_Z n.

Fixpoint zeros (n : nat) : string :=
  match n with
  | O => EmptyString
  | S k => String "0" (zeros k)
  end.

(** The decimal digits of [n] padded with zeros on the left to [w]. *)
Definition zfill (w : nat) (n : Z) : string :=
  let d := of_nat_Z n in
  zeros (w - String.length d) ++ d.

Definition hex_char (d : Z) : ascii :=
  if d <? 10 then Ascii.ascii_of_nat (48 + Z.to_nat d)
  else Ascii.ascii_of_nat (87 + Z.to_nat d).

(** Two lower-case hexadecimal digits of a code below 256. *)
Definition hex2 (n : Z) : string :=
  String (hex_char (n / 16)) (String (hex_char (n mod 16)) EmptyString).

End Str.

(** ** Floats: comparison with an int, [int(x)], ['%.pf'] and [repr] *)

Module PyFloat.

(** The magnitude of [S754_finite s m e] is [m * 2 ^ e]. *)
Definition signed (s : bool) (m : positive) : Z :=
  if s then Z.neg m else Z.pos m.

(** [x < n] for a float [x] and an int [n]; Python compares the exact
    values, and every comparison with NaN is false. *)
Definition lt_int (x : spec_float) (n : Z) : bool :=
  match x with
  | S754_nan => false
  | S754_infinity s => s
  | S754_zero _ => 0 <? n
  | S754_finite s m e =>
      if 0 <=? e then signed s m * 2 ^ e <? n
      else signed s m <? n * 2 ^ (- e)
  end.

(** [x >= n], exact as well. *)
Definition ge_int (x : spec_float) (n : Z) : bool :=
  match x with
  | S754_nan => false
  | S754_infinity s => negb s
  | S754_zero _ => n <=? 0
  | S754_finite s m e =>
      if 0 <=? e then n <=? signed s m * 2 ^ e
      else n * 2 ^ (- e) <=? signed s m
  end.

(** [math.isfinite(x)] *)
Definition finite (x : spec_float) : bool :=
  match x with
  | S754_zero _ | S754_finite _ _ _ => true
  | S754_infinity _ | S754_nan => false
  end.

(** [bool(x)] *)
Definition truthy (x : spec_float) : bool :=
  match x with
  | S754_zero _ => false
  | _ => true
  end.

(** The integer part of a finite float, rounded towards zero. *)
Definition trunc (s : bool) (m : positive) (e : Z) : Z :=
  let a := if 0 <=? e then Z.pos m * 2 ^ e else Z.pos m / 2 ^ (- e) in
  if s then - a else a.

Definition sign_text (s : bool) : string := if s then "-" else "".

Definition round_half_even (num den : Z) : Z :=
  let q := num / den in
  match 2 * (num mod den) ?= den with
  | Lt => q
  | Gt => q + 1
  | Eq => if Z.even q then q else q + 1
  end.

(** [m * 2 ^ e * 10 ^ p] rounded to the nearest integer, ties to even. *)
Definition scaled_round (p : nat) (m : positive) (e : Z) : Z :=
  if 0 <=? e then Z.pos m * 2 ^ e * 10 ^ Z.of_nat p
  else round_half_even (Z.pos m * 10 ^ Z.of_nat p) (2 ^ (- e)).

(** The text of [n / 10 ^ p] with [p] digits after the point. *)
Definition fixed_digits (p : nat) (n : Z) : string :=
  Str.of_nat_Z (n / 10 ^ Z.of_nat p) ++
  match p with
  | O => ""
  | S _ => String "." (Str.zfill p (n mod 10 ^ Z.of_nat p))
  end.

(** [format(x, '0.pf')]: the correctly rounded decimal with [p] digits
    after the point; the flag [0] without a width pads nothing. *)
Definition format_f (p : nat) (x : spec_float) : string :=
  match x with
  | S754_nan => "nan"
  | S754_infinity s => sign_text s ++ "inf"
  | S754_zero s => sign_text s ++ fixed_digits p 0
  | S754_finite s m e => sign_text s ++ fixed_digits p (scaled_round p m e)
  end.

(** *** [repr(x)]: the shortest digits that read back as [x] *)

Definition emin : Z := -1074.

(** [m * 2 ^ e < 10 ^ k] *)
Definition lt_pow10 (m : positive) (e k : Z) : bool :=
  Z.pos m * 2 ^ Z.max e 0 * 10 ^ Z.max (- k) 0
  <? 10 ^ Z.max k 0 * 2 ^ Z.max (- e) 0.

Fixpoint find_decpt (fuel : nat) (m : positive) (e k : Z) : Z :=
  match fuel with
  | O => k
  | S f => if lt_pow10 m e k then k else find_decpt f m e (k + 1)
  end.

(** The least [k] with [m * 2 ^ e < 10 ^ k]. *)
Definition decpt (m : positive) (e : Z) : Z :=
  find_decpt 8 m e ((Z.log2 (Z.pos m) + e) * 30103 / 100000 - 1).

(** The [n]-digit number [D] nearest to [m * 2 ^ e / 10 ^ (k - n)] for
    which [D * 10 ^ (k - n)] reads back as the float, when there is one.
    The float's neighbours are half an ulp away, a quarter below a power
    of two; the bounds count when the mantissa is even. *)
Definition candidate (m : positive) (e k n : Z) : option Z :=
  let E := e - 2 in
  let X := 4 * Z.pos m in
  let H := X + 2 in
  let L := if (Z.pos m =? 2 ^ 52) && (emin <? e) then X - 1 else X - 2 in
  let c := 2 ^ Z.max E 0 * 10 ^ Z.max (n - k) 0 in
  let den := 2 ^ Z.max (- E) 0 * 10 ^ Z.max (k - n) 0 in
  let inside (D : Z) :=
    if Z.even (Z.pos m)
    then (L * c <=? D * den) && (D * den <=? H * c)
    else (L * c <? D * den) && (D * den <? H * c) in
  let D0 := X * c / den in
  let D1 := D0 + 1 in
  match inside D0, inside D1 with
  | true, true => Some (if X * c - D0 * den <=? D1 * den - X * c then D0 else D1)
  | true, false => Some D0
  | false, true => Some D1
  | false, false => None
  end.

Fixpoint shortest (fuel : nat) (m : positive) (e k n : Z) : Z * Z :=
  match fuel with
  | O => (Z.pos m, n)
  | S f =>
      match candidate m e k n with
      | Some D => (D, n)
      | None => shortest f m e k (n + 1)
      end
  end.

Fixpoint drop_zeros (fuel : nat) (D : Z) : Z :=
  match fuel with
  | O => D
  | S f => if D mod 10 =? 0 then drop_zeros f (D / 10) else D
  end.

Fixpoint take (n : nat) (s : string) : string :=
  match n, s with
  | S k, String c r => String c (take k r)
  | _, _ => EmptyString
  end.

Fixpoint drop (n : nat) (s : string) : string :=
  match n, s with
  | S k, String _ r => drop k r
  | _, _ => s
  end.

(** The digits [ds] and the decimal point position [k] ([0.ds * 10 ^ k])
    laid out as [repr] does: positional when [-4 < k <= 16], with [.0]
    added to a whole number, and scientific otherwise. *)
Definition layout (ds : string) (k : Z) : string :=
  let n := Str.len ds in
  if (-4 <? k) && (k <=? 16) then
    if k <=? 0 then "0." ++ Str.zeros (Z.to_nat (- k)) ++ ds
    else if n <=? k then ds ++ Str.zeros (Z.to_nat (k - n)) ++ ".0"
    else take (Z.to_nat k) ds ++ "." ++ drop (Z.to_nat k) ds
  else
    let x := k - 1 in
    take 1 ds ++ (if 1 <? n then "." ++ drop 1 ds else "") ++ "e"
    ++ (if x <? 0 then "-" else "+") ++ Str.zfill 2 (Z.abs x).

(** [repr(x)] (also [str(x)]) of a binary64 float. *)
Definition repr (x : spec_float) : string :=
  match x with
  | S754_nan => "nan"
  | S754_infinity s => sign_text s ++ "inf"
  | S754_zero s => sign_text s ++ "0.0"
  | S754_finite s m e =>
      let k := decpt m e in
      let '(D, n) := shortest 17 m e k 1 in
      let ds := Str.of_nat_Z D in
      let k' := k + (Str.len ds - n) in
      sign_text s ++ layout (Str.of_nat_Z (drop_zeros 20 D)) k'
  end.

(** A finite float in the canonical form of binary64. *)
Definition canonical (m : positive) (e : Z) : bool :=
  (Z.pos m <? 2 ^ 53) && (emin <=? e) && (e <=? 971)
  && ((2 ^ 52 <=? Z.pos m) || (e =? emin)).

Definition valid (x : spec_float) : bool :=
  match x with
  | S754_finite _ m e => canonical m e
  | _ => true
  end.

(** The float nearest to a ratio of integers, for literals such as
    [12.34]; ties go to the even mantissa. *)
Definition of_ratio (num den : Z) : spec_float :=
  if num =? 0 then S754_zero false else
  let a := Z.abs num in
  let e0 := Z.log2 a - Z.log2 den - 53 in
  let pick e :=
    if 0 <=? e then round_half_even a (den * 2 ^ e)
    else round_half_even (a * 2 ^ (- e)) den in
  let e1 := Z.max emin (if pick (e0 + 1) <? 2 ^ 52 then e0 else e0 + 1) in
  let e2 := if 2 ^ 53 <=? pick e1 then e1 + 1 else e1 in
  match pick e2 with
  | Z.pos m => S754_finite (num <? 0) m e2
  | _ => S754_zero (num <? 0)
  end.

End PyFloat.

(** ** Python values *)

#[warnings="-register-all"]
Inductive pyval : Type :=
| VNone
| VBool (b : bool)
| VInt (n : Z)
| VFloat (x : spec_float)
| VStr (s : string)
| VList (l : list pyval)
| VDict (d : list (string * pyval)).

Definition dict : Type := list (string * pyval).

Inductive exn : Type :=
| TypeError
| ValueError
| OverflowError
| IndexError
| KeyError.

(** The outcome of a computation that may raise. *)
Definition result (A : Type) : Type := (exn + A)%type.

Definition quoted_by (q : ascii) (s : string) : string :=
  String q (s ++ String q "").

(** *** [repr] and [str] *)

Module PyStr.

Definition printable (c : ascii) : bool :=
  let n := Str.code c in
  ((32 <=? n) && (n <=? 126)) || ((161 <=? n) && negb (n =? 173)).

Definition repr_char (q c : ascii) : string :=
  if Ascii.eqb c q || Ascii.eqb c Str.backslash
  then String Str.backslash (String c "")
  else if Str.code c =? 9 then String Str.backslash "t"
  else if Str.code c =? 10 then String Str.backslash "n"
  else if Str.code c =? 13 then String Str.backslash "r"
  else if printable c then String c ""
  else String Str.backslash (String "x" (Str.hex2 (Str.code c))).

Fixpoint repr_chars (q : ascii) (s : string) : string :=
  match s with
  | String c r => repr_char q c ++ repr_chars q r
  | EmptyString => EmptyString
  end.

(** [repr(s)] for a [str]: single quotes, unless the text has a single
    quote and no double quote. *)
Definition repr_str (s : string) : string :=
  let q := if Str.mem Str.squote s && negb (Str.mem Str.dquote s)
           then Str.dquote else Str.squote in
  quoted_by q (repr_chars q s).

Fixpoint repr (v : pyval) : string :=
  match v with
  | VNone => "None"
  | VBool b => if b then "True" else "False"
  | VInt n => Str.of_Z n
  | VFloat x => PyFloat.repr x
  | VStr s => repr_str s
  | VList l => "[" ++ Str.join ", " (List.map repr l) ++ "]"
  | VDict d =>
      "{" ++ Str.join ", "
               (List.map (fun kv => repr_str (fst kv) ++ ": " ++ repr (snd kv)) d)
      ++ "}"
  end.

(** [str(v)], which is also [format(v, '')] for these types. *)
Definition str (v : pyval) : string :=
  match v with
  | VStr s => s
  | _ => repr v
  end.

(** [bool(v)] *)
Definition truthy (v : pyval) : bool :=
  match v with
  | VNone => false
  | VBool b => b
  | VInt n => negb (n =? 0)
  | VFloat x => PyFloat.truthy x
  | VStr s => negb (String.eqb s "")
  | VList l => match l with [] => false | _ => true end
  | VDict d => match d with [] => false | _ => true end
  end.

End PyStr.

(** *** [int(v)] *)

Module PyInt.

(** White space that [int] skips around the digits of a [str]. *)
Definition is_space (c : ascii) : bool :=
  let n := Str.code c in
  ((9 <=? n) && (n <=? 13)) || (n =? 32) || (n =? 133) || (n =? 160).

Fixpoint lstrip (s : string) : string :=
  match s with
  | String c r => if is_space c then lstrip r else s
  | EmptyString => EmptyString
  end.

(** Digits, with single underscores between digits, up to trailing white
    space; [seen] tells that the previous character was a digit. *)
Fixpoint digits (s : string) (acc : Z) (seen : bool) : option Z :=
  match s with
  | EmptyString => if seen then Some acc else None
  | String c r =>
      if Str.is_digit c then digits r (acc * 10 + (Str.code c - 48)) true
      else if Ascii.eqb c "_" then
        if seen then digits r acc false else None
      else if seen && String.eqb (lstrip s) "" then Some acc
      else None
  end.

(** [int(s)] for a [str] in base 10. *)
Definition of_str (s : string) : result Z :=
  let body := lstrip s in
  let parsed :=
    match body with
    | String "-" r => option_map Z.opp (digits r 0 false)
    | String "+" r => digits r 0 false
    | _ => digits body 0 false
    end in
  match parsed with
  | Some n => inr n
  | None => inl ValueError
  end.

Definition int (v : pyval) : result Z :=
  match v with
  | VInt n => inr n
  | VBool b => inr (if b then 1 else 0)
  | VFloat S754_nan => inl ValueError
  | VFloat (S754_infinity _) => inl OverflowError
  | VFloat (S754_zero _) => inr 0
  | VFloat (S754_finite s m e) => inr (PyFloat.trunc s m e)
  | VStr s => of_str s
  | VNone | VList _ | VDict _ => inl TypeError
  end.

End PyInt.

(** *** [json.dumps(v, separators=(',', ':'), sort_keys=True)] *)

Module Json.

(** One character of a string literal with [ensure_ascii]. *)
Definition escape_char (c : ascii) : string :=
  let n := Str.code c in
  if Ascii.eqb c Str.dquote then String Str.backslash (String Str.dquote "")
  else if Ascii.eqb c Str.backslash then String Str.backslash (String Str.backslash "")
  else if n =? 10 then String Str.backslash "n"
  else if n =? 13 then String Str.backslash "r"
  else if n =? 9 then String Str.backslash "t"
  else if n =? 8 then String Str.backslash "b"
  else if n =? 12 then String Str.backslash "f"
  else if (32 <=? n) && (n <=? 126) then String c ""
  else String Str.backslash ("u00" ++ Str.hex2 n).

Fixpoint escape_chars (s : string) : string :=
  match s with
  | String c r => escape_char c ++ escape_chars r
  | EmptyString => EmptyString
  end.

Definition string_literal (s : string) : string :=
  quoted_by Str.dquote (escape_chars s).

Definition float_text (x : spec_float) : string :=
  match x with
  | S754_nan => "NaN"
  | S754_infinity s => if s then "-Infinity" else "Infinity"
  | _ => PyFloat.repr x
  end.

(** [sorted] on the keys: a stable insertion sort by code points. *)
Fixpoint insert_item {A : Type} (kv : string * A) (l : list (string * A))
  : list (string * A) :=
  match l with
  | [] => [kv]
  | h :: t =>
      if String.leb (fst kv) (fst h) then kv :: l else h :: insert_item kv t
  end.

Fixpoint sort_keys {A : Type} (l : list (string * A)) : list (string * A) :=
  match l with
  | [] => []
  | kv :: t => insert_item kv (sort_keys t)
  end.

(** The order of the entries of a dump: by key, code point by code point. *)
Definition key_le {A : Type} (a b : string * A) : Prop :=
  String.leb (fst a) (fst b) = true.

Definition member (kv : string * string) : string :=
  string_literal (fst kv) ++ ":" ++ snd kv.

(** The text of an object whose values are already serialized. *)
Definition object_text (items : list (string * string)) : string :=
  "{" ++ Str.join "," (List.map member (sort_keys items)) ++ "}".

Fixpoint dumps (v : pyval) : string :=
  match v with
  | VNone => "null"
  | VBool b => if b then "true" else "false"
  | VInt n => Str.of_Z n
  | VFloat x => float_text x
  | VStr s => string_literal s
  | VList l => "[" ++ Str.join "," (List.map dumps l) ++ "]"
  | VDict d => object_text (List.map (fun kv => (fst kv, dumps (snd kv))) d)
  end.

End Json.

(** ** [csv.writer] with the default dialect, for a row of one field *)

Module Csv.

(** The characters that make the writer quote a field: the delimiter, the
    quote character and the characters of the line terminator. *)
Definition special (c : ascii) : bool :=
  Ascii.eqb c Str.comma || Ascii.eqb c Str.dquote
  || Ascii.eqb c Str.CR || Ascii.eqb c Str.LF.

Fixpoint needs_quote (s : string) : bool :=
  match s with
  | String c r => special c || needs_quote r
  | EmptyString => false
  end.

(** Every quote character doubled. *)
Fixpoint double_quotes (s : string) : string :=
  match s with
  | String c r =>
      if Ascii.eqb c Str.dquote
      then String c (String c (double_quotes r))
      else String c (double_quotes r)
  | EmptyString => EmptyString
  end.

Definition quote_field (s : string) : string :=
  quoted_by Str.dquote (double_quotes s).

Definition line_terminator : string := String Str.CR (String Str.LF "").

(** The text of a field: [None] is the empty text, a [str] is itself and
    anything else goes through [str()]. *)
Definition field_text (v : pyval) : string :=
  match v with
  | VNone => ""
  | VStr s => s
  | _ => PyStr.str v
  end.

(** [writerow([v])]: the record that is written.  A record that would be
    empty, one empty field, is written as a pair of quotes. *)
Definition writerow1 (v : pyval) : string :=
  let text := field_text v in
  let record :=
    if needs_quote text then quote_field text
    else if String.eqb text "" then quote_field ""
    else text in
  record ++ line_terminator.

End Csv.

(** ** The module [_csv_out] *)

Definition escape_csv (text : pyval) (width : option Z) : string :=
  let output := Csv.writerow1 text in
  let text := Str.strip output in
  match width with
  | Some w => Str.rjust text w
  | None => text
  end.

(** *** The loop [for k in custom_counts: custom_counts[k] = int(custom_counts[k])] *)

Module Counts.

Fixpoint dict_get (d : dict) (k : string) : option pyval :=
  match d with
  | [] => None
  | (k', v) :: t => if String.eqb k k' then Some v else dict_get t k
  end.

(** [d[k] = v]: an existing key keeps its place, a new one goes last. *)
Fixpoint dict_set (d : dict) (k : string) (v : pyval) : dict :=
  match d with
  | [] => [(k, v)]
  | (k', v') :: t =>
      if String.eqb k k' then (k', v) :: t else (k', v') :: dict_set t k v
  end.

(** The loop over the keys still to visit, on the current state of the
    dict; it stops at the first value that [int] refuses. *)
Fixpoint coerce_dict (keys : list string) (d : dict) : dict * result unit :=
  match keys with
  | [] => (d, inr tt)
  | k :: ks =>
      match dict_get d k with
      | None => (d, inl KeyError)
      | Some v =>
          match PyInt.int v with
          | inl e => (d, inl e)
          | inr n => coerce_dict ks (dict_set d k (VInt n))
          end
      end
  end.

(** [l[k]] for a list [l] of length [n]: the position that [k] names. *)
Definition list_index (k : pyval) (n : Z) : result nat :=
  let at_ (i : Z) : result nat :=
    let j := if i <? 0 then i + n else i in
    if (0 <=? j) && (j <? n) then inr (Z.to_nat j) else inl IndexError in
  match k with
  | VInt i => at_ i
  | VBool b => at_ (if b then 1 else 0)
  | _ => inl TypeError
  end.

Fixpoint list_set (l : list pyval) (j : nat) (v : pyval) : list pyval :=
  match l, j with
  | [], _ => []
  | _ :: t, O => v :: t
  | h :: t, S j' => h :: list_set t j' v
  end.

(** The same loop on a list: [k] is the element at position [i], read
    when the iterator reaches it. *)
Fixpoint coerce_list (fuel i : nat) (l : list pyval)
  : list pyval * result unit :=
  match fuel with
  | O => (l, inr tt)
  | S f =>
      match nth_error l i with
      | None => (l, inr tt)
      | Some k =>
          match list_index k (Z.of_nat (List.length l)) with
          | inl e => (l, inl e)
          | inr j =>
              match nth_error l j with
              | None => (l, inl IndexError)
              | Some v =>
                  match PyInt.int v with
                  | inl e => (l, inl e)
                  | inr n => coerce_list f (S i) (list_set l j (VInt n))
                  end
              end
          end
      end
  end.

(** The loop on a truthy [custom_counts]: the object afterwards and
    whether the loop completed.  A [str] is indexed by a [str] and an
    [int], [float] or [bool] is not iterable: both raise [TypeError]. *)
Definition coerce (custom_counts : pyval) : pyval * result unit :=
  match custom_counts with
  | VDict d =>
      let '(d', r) := coerce_dict (List.map fst d) d in (VDict d', r)
  | VList l =>
      let '(l', r) := coerce_list (List.length l) 0 l in (VList l', r)
  | _ => (custom_counts, inl TypeError)
  end.

(** An entry and what the loop makes of it: the same key, with the value
    that [int] returns. *)
Definition coerced_to (kv kv' : string * pyval) : Prop :=
  fst kv' = fst kv
  /\ exists n : Z, PyInt.int (snd kv) = inr n /\ snd kv' = VInt n.

(** The entries in order, each value replaced by its [int] up to the
    first one that [int] refuses; on a dict, whose keys are distinct, the
    loop computes this ([coerce_dict_entries]). *)
Fixpoint coerce_entries (d : dict) : dict * result unit :=
  match d with
  | [] => ([], inr tt)
  | (k, v) :: t =>
      match PyInt.int v with
      | inl e => (d, inl e)
      | inr n =>
          let '(t', r) := coerce_entries t in ((k, VInt n) :: t', r)
      end
  end.

End Counts.

Record row : Type := Row {
  shots : pyval;
  errors : pyval;
  discards : pyval;
  seconds : pyval;
  decoder : pyval;
  strong_id : pyval;
  json_metadata : pyval;
  custom_counts : pyval;
  is_header : bool
}.

(** [isinstance(seconds, float)] and the three precisions. *)
Definition format_seconds (seconds : pyval) : pyval :=
  match seconds with
  | VFloat x =>
      if PyFloat.lt_int x 1 then VStr (PyFloat.format_f 3 x)
      else if PyFloat.lt_int x 10 then VStr (PyFloat.format_f 2 x)
      else VStr (PyFloat.format_f 1 x)
  | _ => seconds
  end.

(** [isinstance(errors, (dict, collections.Counter))] and the dump. *)
Definition format_errors (errors : pyval) : pyval :=
  match errors with
  | VDict _ => VStr (Json.dumps errors)
  | _ => errors
  end.

(** The block under [if not is_header]: the [custom_counts] object
    afterwards, and the new values of the variables [json_metadata] and
    [custom_counts] unless [int] raised. *)
Definition preformat (r : row) : pyval * result (pyval * pyval) :=
  if negb r.(is_header) then
    let json_metadata := VStr (Json.dumps r.(json_metadata)) in
    if PyStr.truthy r.(custom_counts) then
      match Counts.coerce r.(custom_counts) with
      | (obj, inl e) => (obj, inl e)
      | (obj, inr _) =>
          (obj, inr (json_metadata, VStr (escape_csv (VStr (Json.dumps obj)) None)))
      end
    else (r.(custom_counts), inr (json_metadata, VStr ""))
  else (r.(custom_counts), inr (r.(json_metadata), r.(custom_counts))).

(** [csv_line]: the state of the caller's [custom_counts] object after the
    call, and the line or the exception. *)
Definition csv_line (r : row) : pyval * result string :=
  let seconds := format_seconds r.(seconds) in
  match preformat r with
  | (obj, inl e) => (obj, inl e)
  | (obj, inr (json_metadata, custom_counts)) =>
      let shots := escape_csv r.(shots) (Some 10) in
      let errors := escape_csv (format_errors r.(errors)) (Some 10) in
      let discards := escape_csv r.(discards) (Some 10) in
      let seconds := escape_csv seconds (Some 8) in
      let decoder := escape_csv r.(decoder) None in
      let strong_id := escape_csv r.(strong_id) None in
      let json_metadata := escape_csv json_metadata None in
      (obj, inr (shots ++ "," ++ errors ++ "," ++ discards ++ ","
                 ++ seconds ++ "," ++ decoder ++ "," ++ strong_id ++ ","
                 ++ json_metadata ++ "," ++ PyStr.str custom_counts))
  end.

Definition header_row : row :=
  {| shots := VStr "shots";
     errors := VStr "errors";
     discards := VStr "discards";
     seconds := VStr "seconds";
     decoder := VStr "decoder";
     strong_id := VStr "strong_id";
     json_metadata := VStr "json_metadata";
     custom_counts := VStr "custom_counts";
     is_header := true |}.

Definition CSV_HEADER : string :=
  match snd (csv_line header_row) with
  | inr line => line
  | inl _ => ""
  end.

(** ** Reading a line back

    The module only writes.  The properties of the format speak of a
    reader that splits a line on the commas outside quotes and unescapes a
    field by removing the surrounding quotes and collapsing doubled quotes;
    this is that reader. *)

Module Reader.

(** The first field of [s] and the fields after it; [inq] tells that the
    text so far has an open quote. *)
Fixpoint split_from (inq : bool) (s : string) : string * list string :=
  match s with
  | EmptyString => (EmptyString, [])
  | String c r =>
      if Ascii.eqb c Str.dquote then
        let '(f, fs) := split_from (negb inq) r in (String c f, fs)
      else if Ascii.eqb c Str.comma && negb inq then
        let '(f, fs) := split_from false r in (EmptyString, f :: fs)
      else
        let '(f, fs) := split_from inq r in (String c f, fs)
  end.

Definition split_row (line : string) : list string :=
  let '(f, fs) := split_from false line in f :: fs.

(** The number of commas outside quotes. *)
Fixpoint commas_from (inq : bool) (s : string) : nat :=
  match s with
  | EmptyString => O
  | String c r =>
      if Ascii.eqb c Str.dquote then commas_from (negb inq) r
      else if Ascii.eqb c Str.comma && negb inq then S (commas_from false r)
      else commas_from inq r
  end.

Definition separators (line : string) : nat := commas_from false line.

(** The quote state after [s], or [None] when [s] has a comma outside
    quotes. *)
Fixpoint scan (inq : bool) (s : string) : option bool :=
  match s with
  | EmptyString => Some inq
  | String c r =>
      if Ascii.eqb c Str.dquote then scan (negb inq) r
      else if Ascii.eqb c Str.comma && negb inq then None
      else scan inq r
  end.

(** A text that is one whole field: no comma outside quotes and every
    quote closed. *)
Definition is_field (s : string) : Prop := scan false s = Some false.

Fixpoint collapse_quotes (s : string) : string :=
  match s with
  | EmptyString => EmptyString
  | String c r =>
      if Ascii.eqb c Str.dquote then
        match r with
        | String d r' =>
            if Ascii.eqb d Str.dquote then String c (collapse_quotes r')
            else String c (collapse_quotes r)
        | EmptyString => String c EmptyString
        end
      else String c (collapse_quotes r)
  end.

(** The text without its last character when that is a quote. *)
Fixpoint drop_closing (s : string) : string :=
  match s with
  | EmptyString => EmptyString
  | String c r =>
      match r with
      | EmptyString => if Ascii.eqb c Str.dquote then EmptyString else s
      | _ => String c (drop_closing r)
      end
  end.

(** A field that starts with a quote loses its surrounding quotes and has
    its doubled quotes collapsed; any other field is its own text. *)
Definition unescape_field (f : string) : string :=
  match f with
  | String c r =>
      if Ascii.eqb c Str.dquote then collapse_quotes (drop_closing r) else f
  | EmptyString => f
  end.

(** The field without the spaces that a width puts before it. *)
Fixpoint skip_padding (f : string) : string :=
  match f with
  | String c r => if Ascii.eqb c Str.space then skip_padding r else f
  | EmptyString => EmptyString
  end.

Fixpoint all_digits (s : string) : bool :=
  match s with
  | EmptyString => true
  | String c r => Str.is_digit c && all_digits r
  end.

(** The text before the first point and the text after it. *)
Fixpoint split_point (s : string) : option (string * string) :=
  match s with
  | EmptyString => None
  | String c r =>
      if Ascii.eqb c "." then Some (EmptyString, r)
      else match split_point r with
           | Some (i, f) => Some (String c i, f)
           | None => None
           end
  end.

(** A number written with exactly [p] decimal places: an optional minus
    sign, one digit or more, a point and [p] digits. *)
Definition has_decimals (p : nat) (s : string) : bool :=
  let body := match s with String "-" r => r | _ => s end in
  match split_point body with
  | Some (i, f) =>
      negb (String.eqb i "") && all_digits i && all_digits f
      && Nat.eqb (String.length f) p
  | None => false
  end.

End Reader.

(** What the description of the escaper says a field is: the text in
    quotes, with its quotes doubled, exactly when it has a comma, a quote
    or a line break, and the text itself otherwise. *)
Definition rfc4180_field (text : string) : string :=
  if Csv.needs_quote text then Csv.quote_field text else text.

(** ** Sample records *)

Module Sample.

Definition q (s : string) : string := quoted_by Str.dquote s.

(** [0.5], [5.25], [12.34] and [3.0] as binary64 numbers. *)
Definition half : spec_float := S754_finite false 4503599627370496 (-53).
Definition five_25 : spec_float := S754_finite false 5910974510923776 (-50).
Definition twelve_34 : spec_float := S754_finite false 6946802425218990 (-49).
Definition three : spec_float := S754_finite false 6755399441055744 (-51).
Definition infinity : spec_float := S754_infinity false.

Definition errors_by_kind : pyval :=
  VDict [("timeout", VInt 2); ("mismatch", VInt 1)].

Definition metadata : pyval := VDict [("b", VInt 1); ("a", VInt 2)].

(** [{"x": 3.0, "y": 1}] *)
Definition counts : dict := [("x", VFloat three); ("y", VInt 1)].

(** [{"x": 3.0, "y": "many", "z": 2.0}]: the second value is no integer. *)
Definition bad_counts : dict :=
  [("x", VFloat three); ("y", VStr "many"); ("z", VFloat three)].

(** A data record with the given metadata and custom counts. *)
Definition record (json_metadata custom_counts : pyval) : row :=
  {| shots := VInt 1000;
     errors := errors_by_kind;
     discards := VInt 0;
     seconds := VFloat twelve_34;
     decoder := VStr "pymatching";
     strong_id := VStr "abc123";
     json_metadata := json_metadata;
     custom_counts := custom_counts;
     is_header := false |}.

(** A data record that took the given time. *)
Definition timed (seconds : pyval) : row :=
  {| shots := VInt 1000;
     errors := VInt 3;
     discards := VInt 0;
     seconds := seconds;
     decoder := VStr "pymatching";
     strong_id := VStr "abc123";
     json_metadata := VNone;
     custom_counts := VNone;
     is_header := false |}.

Definition full : row := record metadata (VDict counts).
Definition no_counts : row := record metadata (VDict []).
Definition no_metadata : row := record VNone VNone.
Definition failing : row := record metadata (VDict bad_counts).

(** The canonical text of [{"x": 3, "y": 1}]. *)
Definition counts_json : string := "{" ++ q "x" ++ ":3," ++ q "y" ++ ":1}".

End Sample.

(** ** Line breaks and repeated calls *)

Module Lines.

(** The number of carriage returns and line feeds outside quotes; [inq]
    tells that the text so far has an open quote. *)
Fixpoint breaks_from (inq : bool) (s : string) : nat :=
  match s with
  | EmptyString => O
  | String c r =>
      if Ascii.eqb c Str.dquote then breaks_from (negb inq) r
      else if (Ascii.eqb c Str.CR || Ascii.eqb c Str.LF) && negb inq
           then S (breaks_from inq r)
           else breaks_from inq r
  end.

Definition bare_breaks (line : string) : nat := breaks_from false line.

(** The same keyword arguments with another [custom_counts] object. *)
Definition with_counts (r : row) (counts : pyval) : row :=
  {| shots := shots r;
     errors := errors r;
     discards := discards r;
     seconds := seconds r;
     decoder := decoder r;
     strong_id := strong_id r;
     json_metadata := json_metadata r;
     custom_counts := counts;
     is_header := is_header r |}.

(** The seven fields that the last pass of [csv_line] escapes, joined. *)
Definition leading (r : row) (json_metadata : pyval) : string :=
  escape_csv (shots r) (Some 10) ++ "," ++
  escape_csv (format_errors (errors r)) (Some 10) ++ "," ++
  escape_csv (discards r) (Some 10) ++ "," ++
  escape_csv (format_seconds (seconds r)) (Some 8) ++ "," ++
  escape_csv (decoder r) None ++ "," ++
  escape_csv (strong_id r) None ++ "," ++
  escape_csv json_metadata None.

End Lines.

(** ** Values that are whole numbers *)

Module Whole.

(** [x.is_integer()]: a finite float with no fractional part. *)
Definition is_integer (x : spec_float) : bool :=
  match x with
  | S754_zero _ => true
  | S754_finite _ m e => (0 <=? e) || (Z.pos m mod 2 ^ (- e) =? 0)
  | S754_infinity _ | S754_nan => false
  end.

(** A value that stands for an integer: an int, a bool, a float with no
    fractional part, a text that [int] reads. *)
Definition represents_integer (v : pyval) : bool :=
  match v with
  | VInt _ | VBool _ => true
  | VFloat x => is_integer x
  | VStr s => match PyInt.of_str s with inr _ => true | inl _ => false end
  | VNone | VList _ | VDict _ => false
  end.

(** [2.9] as a binary64 number. *)
Definition two_9 : spec_float := S754_finite false 6530219459687219 (-51).

(** A data record with [custom_counts = {"p": 2.9}]. *)
Definition fractional : row :=
  Sample.record Sample.metadata (VDict [("p", VFloat two_9)]).

End Whole.

(** * Properties *)

#[local] Arguments Ascii.eqb : simpl never.
#[local] Arguments String.eqb : simpl never.

(** ** Strings *)

Section StringFacts.

Lemma app_nil_r (s : string) : s ++ "" = s.
Proof. induction s as [|c s IH]; simpl; [reflexivity | now rewrite IH]. Qed.

Lemma app_assoc (a b c : string) : (a ++ b) ++ c = a ++ b ++ c.
Proof. induction a as [|x a IH]; simpl; [reflexivity | now rewrite IH]. Qed.

Lemma length_app (a b : string) :
  String.length (a ++ b) = (String.length a + String.length b)%nat.
Proof. induction a as [|x a IH]; simpl; [reflexivity | now rewrite IH]. Qed.

Lemma mem_app (c : ascii) (a b : string) :
  Str.mem c (a ++ b) = Str.mem c a || Str.mem c b.
Proof.
  induction a as [|x a IH]; simpl; [reflexivity|].
  now rewrite IH, orb_assoc.
Qed.

Lemma last_char_app_cons (a : string) (c : ascii) (b : string) :
  Str.last_char (a ++ String c b) = Str.last_char (String c b).
Proof.
  induction a as [|x a IH]; [reflexivity|].
  change (String x a ++ String c b) with (String x (a ++ String c b)).
  destruct a; simpl in *; exact IH.
Qed.

Lemma spaces_length (n : nat) : String.length (Str.spaces n) = n.
Proof. induction n; simpl; congruence. Qed.

(** A character that is not white space stops [lstrip]. *)
Lemma lstrip_stop (c : ascii) (s : string) :
  Str.is_space c = false -> Str.lstrip (String c s) = String c s.
Proof. intros H; simpl; now rewrite H. Qed.

Lemma rstrip_nonempty (s : string) (c : ascii) :
  Str.is_space c = false -> Str.rstrip (s ++ String c "") = s ++ String c "".
Proof.
  intros H; induction s as [|x s IH]; simpl.
  - now rewrite H.
  - rewrite IH. destruct s; reflexivity.
Qed.

(** Trailing white space is what [rstrip] removes. *)
Lemma rstrip_app_space (s : string) (c : ascii) :
  Str.is_space c = true -> Str.rstrip (s ++ String c "") = Str.rstrip s.
Proof.
  intros H; induction s as [|x s IH]; simpl.
  - now rewrite H.
  - now rewrite IH.
Qed.

Lemma rstrip_terminator (s : string) :
  Str.rstrip (s ++ Csv.line_terminator) = Str.rstrip s.
Proof.
  unfold Csv.line_terminator.
  change (String Str.CR (String Str.LF "")) with (String Str.CR "" ++ String Str.LF "").
  rewrite <- app_assoc.
  rewrite rstrip_app_space by reflexivity.
  now rewrite rstrip_app_space by reflexivity.
Qed.

Lemma lstrip_all_space (s t : string) :
  Str.lstrip s = "" -> Str.lstrip (s ++ t) = Str.lstrip t.
Proof.
  induction s as [|x s IH]; simpl; [reflexivity|].
  destruct (Str.is_space x); [exact IH | discriminate].
Qed.

Lemma lstrip_app (s t : string) :
  Str.lstrip s <> "" -> Str.lstrip (s ++ t) = Str.lstrip s ++ t.
Proof.
  induction s as [|x s IH]; simpl; [congruence|].
  destruct (Str.is_space x); [exact IH | reflexivity].
Qed.

Lemma rstrip_lstrip_empty (s : string) : Str.lstrip s = "" -> Str.rstrip s = "".
Proof.
  induction s as [|x s IH]; simpl; [reflexivity|].
  destruct (Str.is_space x) eqn:E; [|discriminate].
  intros H. now rewrite (IH H).
Qed.

(** The terminator that the writer adds goes, with the white space around
    the text. *)
Lemma strip_terminator (s : string) :
  Str.strip (s ++ Csv.line_terminator) = Str.strip s.
Proof.
  unfold Str.strip.
  destruct (Str.lstrip s) eqn:E.
  - rewrite lstrip_all_space by exact E. reflexivity.
  - rewrite lstrip_app by congruence. rewrite E. apply rstrip_terminator.
Qed.

Lemma strip_quoted (s : string) :
  Str.strip (quoted_by Str.dquote s) = quoted_by Str.dquote s.
Proof.
  unfold Str.strip, quoted_by.
  rewrite lstrip_stop by reflexivity.
  change (String Str.dquote (s ++ String Str.dquote ""))
    with (String Str.dquote s ++ String Str.dquote "").
  now apply rstrip_nonempty.
Qed.

End StringFacts.

(** ** The escaper, in closed form *)

Section EscapeFacts.

(** Without a width: a text with a comma, a quote or a line break, and the
    empty text, come out in quotes; any other text comes out stripped. *)
Lemma escape_csv_None (v : pyval) :
  escape_csv v None =
  let text := Csv.field_text v in
  if Csv.needs_quote text || String.eqb text "" then Csv.quote_field text
  else Str.strip text.
Proof.
  unfold escape_csv, Csv.writerow1. cbv zeta.
  rewrite strip_terminator.
  destruct (Csv.needs_quote (Csv.field_text v)); simpl.
  - apply strip_quoted.
  - destruct (String.eqb_spec (Csv.field_text v) "") as [E|E].
    + rewrite E. apply strip_quoted.
    + reflexivity.
Qed.

Lemma escape_csv_Some (v : pyval) (w : Z) :
  escape_csv v (Some w) = Str.rjust (escape_csv v None) w.
Proof. reflexivity. Qed.

(** With or without a width, the result is the unpadded field after some
    spaces. *)
Lemma escape_csv_padding (v : pyval) (w : option Z) :
  exists n : nat, escape_csv v w = Str.spaces n ++ escape_csv v None.
Proof.
  destruct w as [w|].
  - rewrite escape_csv_Some. unfold Str.rjust. eauto.
  - exists O. reflexivity.
Qed.

Lemma mem_lstrip (c : ascii) (s : string) :
  Str.mem c s = false -> Str.mem c (Str.lstrip s) = false.
Proof.
  induction s as [|x s IH]; simpl; [reflexivity|].
  intros H. apply orb_false_elim in H as [H1 H2].
  destruct (Str.is_space x); [auto | simpl; now rewrite H1, H2].
Qed.

Lemma mem_rstrip (c : ascii) (s : string) :
  Str.mem c s = false -> Str.mem c (Str.rstrip s) = false.
Proof.
  induction s as [|x s IH]; simpl; [reflexivity|].
  intros H. apply orb_false_elim in H as [H1 H2].
  specialize (IH H2).
  destruct (Str.rstrip s) eqn:E.
  - destruct (Str.is_space x); simpl; [reflexivity | now rewrite H1].
  - simpl in *. now rewrite H1, IH.
Qed.

Lemma mem_strip (c : ascii) (s : string) :
  Str.mem c s = false -> Str.mem c (Str.strip s) = false.
Proof. intros H. unfold Str.strip. now apply mem_rstrip, mem_lstrip. Qed.

Lemma needs_quote_false (s : string) :
  Csv.needs_quote s = false ->
  Str.mem Str.comma s = false /\ Str.mem Str.dquote s = false.
Proof.
  induction s as [|x s IH]; simpl; [auto|].
  intros H. apply orb_false_elim in H as [H1 H2].
  destruct (IH H2) as [Hc Hq]. rewrite Hc, Hq.
  unfold Csv.special in H1.
  rewrite (Ascii.eqb_sym Str.comma x), (Ascii.eqb_sym Str.dquote x).
  destruct (Ascii.eqb x Str.comma), (Ascii.eqb x Str.dquote);
    simpl in H1; try discriminate; auto.
Qed.

Lemma needs_quote_mem (s : string) :
  Csv.needs_quote s =
  Str.mem Str.comma s || Str.mem Str.dquote s
  || Str.mem Str.CR s || Str.mem Str.LF s.
Proof.
  induction s as [|x s IH]; simpl; [reflexivity|].
  rewrite IH. unfold Csv.special.
  rewrite (Ascii.eqb_sym Str.comma x), (Ascii.eqb_sym Str.dquote x),
    (Ascii.eqb_sym Str.CR x), (Ascii.eqb_sym Str.LF x).
  destruct (Ascii.eqb x Str.comma), (Ascii.eqb x Str.dquote),
    (Ascii.eqb x Str.CR), (Ascii.eqb x Str.LF),
    (Str.mem Str.comma s), (Str.mem Str.dquote s), (Str.mem Str.CR s),
    (Str.mem Str.LF s); reflexivity.
Qed.

End EscapeFacts.

(** ** Fields and lines under the reader *)

Section ReaderFacts.

Lemma scan_app (q : bool) (a b : string) :
  Reader.scan q (a ++ b) =
  match Reader.scan q a with
  | Some q' => Reader.scan q' b
  | None => None
  end.
Proof.
  revert q; induction a as [|x a IH]; intros q; simpl; [reflexivity|].
  destruct (Ascii.eqb x Str.dquote); [apply IH|].
  destruct (Ascii.eqb x Str.comma && negb q); [reflexivity | apply IH].
Qed.

(** A text with no comma and no quote leaves the state as it is. *)
Lemma scan_plain (q : bool) (s : string) :
  Str.mem Str.comma s = false -> Str.mem Str.dquote s = false ->
  Reader.scan q s = Some q.
Proof.
  induction s as [|x s IH]; simpl; [reflexivity|].
  intros Hc Hq.
  apply orb_false_elim in Hc as [Hc1 Hc2].
  apply orb_false_elim in Hq as [Hq1 Hq2].
  rewrite (Ascii.eqb_sym x), Hq1, (Ascii.eqb_sym x), Hc1. simpl. auto.
Qed.

Lemma scan_spaces (q : bool) (n : nat) : Reader.scan q (Str.spaces n) = Some q.
Proof. induction n; simpl; auto. Qed.

(** Inside quotes, a text with its quotes doubled is passed over. *)
Lemma scan_double_quotes (t : string) :
  Reader.scan true (Csv.double_quotes t) = Some true.
Proof.
  induction t as [|x t IH]; simpl; [reflexivity|].
  destruct (Ascii.eqb x Str.dquote) eqn:E; simpl; rewrite E; simpl.
  - exact IH.
  - now rewrite andb_false_r.
Qed.

Lemma quote_field_is_field (t : string) : Reader.is_field (Csv.quote_field t).
Proof.
  unfold Reader.is_field, Csv.quote_field, quoted_by.
  change (Reader.scan false (String Str.dquote (Csv.double_quotes t ++ String Str.dquote "")))
    with (Reader.scan true (Csv.double_quotes t ++ String Str.dquote "")).
  rewrite scan_app, scan_double_quotes. reflexivity.
Qed.

(** Whatever the value and the width, [escape_csv] returns one field. *)
Lemma escape_csv_is_field (v : pyval) (w : option Z) :
  Reader.is_field (escape_csv v w).
Proof.
  destruct (escape_csv_padding v w) as [n ->].
  unfold Reader.is_field. rewrite scan_app, scan_spaces.
  rewrite escape_csv_None. cbv zeta.
  destruct (Csv.needs_quote (Csv.field_text v)) eqn:Hq; simpl.
  - apply quote_field_is_field.
  - destruct (String.eqb (Csv.field_text v) ""); [apply quote_field_is_field|].
    apply needs_quote_false in Hq as [Hc Hd].
    apply scan_plain; now apply mem_strip.
Qed.

Lemma split_from_app (q q' : bool) (a b : string) :
  Reader.scan q a = Some q' ->
  Reader.split_from q (a ++ b) =
  (a ++ fst (Reader.split_from q' b), snd (Reader.split_from q' b)).
Proof.
  revert q; induction a as [|x a IH]; intros q; simpl.
  - intros [= ->]. now destruct (Reader.split_from q' b).
  - destruct (Ascii.eqb x Str.dquote).
    + intros H. rewrite (IH _ H). reflexivity.
    + destruct (Ascii.eqb x Str.comma && negb q); [discriminate|].
      intros H. rewrite (IH _ H). reflexivity.
Qed.

Lemma split_row_cons (a b : string) :
  Reader.is_field a ->
  Reader.split_row (a ++ "," ++ b) = a :: Reader.split_row b.
Proof.
  intros H. unfold Reader.split_row.
  rewrite (split_from_app _ _ _ _ H). simpl.
  destruct (Reader.split_from false b). simpl. now rewrite app_nil_r.
Qed.

Lemma split_row_single (a : string) (q : bool) :
  Reader.scan false a = Some q -> Reader.split_row a = [a].
Proof.
  intros H. unfold Reader.split_row.
  rewrite <- (app_nil_r a) at 1.
  rewrite (split_from_app _ _ _ _ H). simpl. now rewrite app_nil_r.
Qed.

Lemma commas_from_app (q q' : bool) (a b : string) :
  Reader.scan q a = Some q' ->
  Reader.commas_from q (a ++ b) = Reader.commas_from q' b.
Proof.
  revert q; induction a as [|x a IH]; intros q; simpl.
  - now intros [= ->].
  - destruct (Ascii.eqb x Str.dquote); [apply IH|].
    destruct (Ascii.eqb x Str.comma && negb q); [discriminate | apply IH].
Qed.

Lemma separators_cons (a b : string) :
  Reader.is_field a ->
  Reader.separators (a ++ "," ++ b) = S (Reader.separators b).
Proof.
  intros H. unfold Reader.separators.
  now rewrite (commas_from_app _ _ _ _ H).
Qed.

Lemma separators_single (a : string) (q : bool) :
  Reader.scan false a = Some q -> Reader.separators a = O.
Proof.
  intros H. unfold Reader.separators.
  rewrite <- (app_nil_r a). now rewrite (commas_from_app _ _ _ _ H).
Qed.

(** Eight fields put together with commas are read back as they are. *)
Lemma split_row_eight (f1 f2 f3 f4 f5 f6 f7 f8 : string) :
  Reader.is_field f1 -> Reader.is_field f2 -> Reader.is_field f3 ->
  Reader.is_field f4 -> Reader.is_field f5 -> Reader.is_field f6 ->
  Reader.is_field f7 -> Reader.is_field f8 ->
  let line := f1 ++ "," ++ f2 ++ "," ++ f3 ++ "," ++ f4 ++ "," ++ f5 ++ ","
              ++ f6 ++ "," ++ f7 ++ "," ++ f8 in
  Reader.split_row line = [f1; f2; f3; f4; f5; f6; f7; f8]
  /\ Reader.separators line = 7%nat.
Proof.
  intros H1 H2 H3 H4 H5 H6 H7 H8 line. subst line. split.
  - rewrite !split_row_cons by assumption.
    now rewrite (split_row_single _ _ H8).
  - rewrite !separators_cons by assumption.
    now rewrite (separators_single _ _ H8).
Qed.

End ReaderFacts.

(** ** The line that [csv_line] returns *)

Section LineFacts.

(** The last field of a data line: the escaped dump of the coerced counts,
    or nothing. *)
Lemma csv_line_data (r : row) (line : string) :
  is_header r = false ->
  snd (csv_line r) = inr line ->
  line =
    escape_csv (shots r) (Some 10) ++ "," ++
    escape_csv (format_errors (errors r)) (Some 10) ++ "," ++
    escape_csv (discards r) (Some 10) ++ "," ++
    escape_csv (format_seconds (seconds r)) (Some 8) ++ "," ++
    escape_csv (decoder r) None ++ "," ++
    escape_csv (strong_id r) None ++ "," ++
    escape_csv (VStr (Json.dumps (json_metadata r))) None ++ "," ++
    (if PyStr.truthy (custom_counts r)
     then escape_csv (VStr (Json.dumps (fst (csv_line r)))) None
     else "").
Proof.
  intros Hh. unfold csv_line, preformat. rewrite Hh. cbn [negb].
  destruct (PyStr.truthy (custom_counts r)).
  - destruct (Counts.coerce (custom_counts r)) as [obj [e|u]]; cbn.
    + discriminate.
    + now intros [= <-].
  - cbn. now intros [= <-].
Qed.

(** When the counts are empty or absent the call cannot fail and leaves
    the object as it was. *)
Lemma csv_line_no_counts (r : row) :
  is_header r = false -> PyStr.truthy (custom_counts r) = false ->
  exists line, csv_line r = (custom_counts r, inr line).
Proof.
  intros Hh Ht. unfold csv_line, preformat. rewrite Hh, Ht. cbn. eauto.
Qed.

Lemma csv_line_fields (r : row) (line : string) :
  is_header r = false ->
  snd (csv_line r) = inr line ->
  Reader.split_row line =
    [ escape_csv (shots r) (Some 10);
      escape_csv (format_errors (errors r)) (Some 10);
      escape_csv (discards r) (Some 10);
      escape_csv (format_seconds (seconds r)) (Some 8);
      escape_csv (decoder r) None;
      escape_csv (strong_id r) None;
      escape_csv (VStr (Json.dumps (json_metadata r))) None;
      if PyStr.truthy (custom_counts r)
      then escape_csv (VStr (Json.dumps (fst (csv_line r)))) None
      else "" ]
  /\ Reader.separators line = 7%nat.
Proof.
  intros Hh Hl. rewrite (csv_line_data r line Hh Hl) at 1 2.
  apply split_row_eight; try apply escape_csv_is_field.
  destruct (PyStr.truthy (custom_counts r));
    [apply escape_csv_is_field | reflexivity].
Qed.

Lemma last_char_rstrip (s : string) (c : ascii) :
  Str.last_char (Str.rstrip s) = Some c -> Str.is_space c = false.
Proof.
  induction s as [|x s IH]; cbn [Str.rstrip]; [discriminate|].
  destruct (Str.rstrip s) as [|y t] eqn:E.
  - destruct (Str.is_space x) eqn:Hx; cbn; [discriminate|].
    now intros [= <-].
  - intros H. apply IH. exact H.
Qed.

Lemma last_char_quoted (q : ascii) (s : string) :
  Str.last_char (quoted_by q s) = Some q.
Proof.
  unfold quoted_by.
  change (String q (s ++ String q "")) with (String q s ++ String q "").
  now rewrite last_char_app_cons.
Qed.

(** An unpadded field does not end in white space. *)
Lemma last_char_escape_csv (v : pyval) (c : ascii) :
  Str.last_char (escape_csv v None) = Some c -> Str.is_space c = false.
Proof.
  rewrite escape_csv_None. cbv zeta.
  destruct (Csv.needs_quote (Csv.field_text v) || String.eqb (Csv.field_text v) "").
  - unfold Csv.quote_field. rewrite last_char_quoted. now intros [= <-].
  - apply last_char_rstrip.
Qed.

Lemma last_char_skip (c : ascii) (a : string) (d : ascii) (b : string) :
  Str.last_char (String c (a ++ String d b)) = Str.last_char (String d b).
Proof. exact (last_char_app_cons (String c a) d b). Qed.

Lemma last_char_cons (c : ascii) (s : string) :
  Str.last_char (String c s) =
  match Str.last_char s with Some d => Some d | None => Some c end.
Proof.
  destruct s as [|a s]; [reflexivity|].
  change (Str.last_char (String c (String a s)))
    with (Str.last_char (String a s)).
  induction s as [|b s IH] in a |- *; [reflexivity|].
  change (Str.last_char (String a (String b s)))
    with (Str.last_char (String b s)).
  apply IH.
Qed.

(** A data line ends with the comma before an empty last field or with a
    character that is not white space: never with a line break. *)
Lemma csv_line_last_char (r : row) (line : string) :
  is_header r = false ->
  snd (csv_line r) = inr line ->
  exists c, Str.last_char line = Some c
            /\ (c = Str.comma \/ Str.is_space c = false).
Proof.
  intros Hh Hl. rewrite (csv_line_data r line Hh Hl).
  cbn [String.append].
  rewrite last_char_app_cons, !last_char_skip, last_char_cons.
  destruct (PyStr.truthy (custom_counts r)).
  - destruct (Str.last_char (escape_csv _ None)) as [c|] eqn:E.
    + exists c. split; [reflexivity|]. right.
      now apply last_char_escape_csv in E.
    + exists Str.comma. auto.
  - exists Str.comma. auto.
Qed.

Lemma CSV_HEADER_text :
  CSV_HEADER =
  "     shots,    errors,  discards, seconds,decoder,strong_id,json_metadata,custom_counts".
Proof. reflexivity. Qed.

End LineFacts.

(** ** The layout of the header and of the data lines *)

(** C9. When [custom_counts] is empty or absent in a data record, the call
    returns a line whose eighth field is the empty text: the line ends
    right after its seventh separator, and the column is still there. *)
Theorem empty_custom_counts_give_an_empty_field (r : row) :
  is_header r = false ->
  custom_counts r = VNone \/ custom_counts r = VDict [] ->
  exists line before : string,
    csv_line r = (custom_counts r, inr line)
    /\ line = before ++ ","
    /\ Reader.separators before = 6%nat
    /\ Reader.separators line = 7%nat
    /\ List.length (Reader.split_row line) = 8%nat
    /\ List.nth 7 (Reader.split_row line) "?" = "".
Proof.
  intros Hh Hc.
  assert (Ht : PyStr.truthy (custom_counts r) = false)
    by (destruct Hc as [-> | ->]; reflexivity).
  destruct (csv_line_no_counts r Hh Ht) as [line Hl].
  assert (Hs : snd (csv_line r) = inr line) by now rewrite Hl.
  destruct (csv_line_fields r line Hh Hs) as [Hf Hn].
  pose proof (csv_line_data r line Hh Hs) as Hd.
  rewrite Ht in Hd, Hf.
  exists line.
  exists (escape_csv (shots r) (Some 10) ++ "," ++
          escape_csv (format_errors (errors r)) (Some 10) ++ "," ++
          escape_csv (discards r) (Some 10) ++ "," ++
          escape_csv (format_seconds (seconds r)) (Some 8) ++ "," ++
          escape_csv (decoder r) None ++ "," ++
          escape_csv (strong_id r) None ++ "," ++
          escape_csv (VStr (Json.dumps (json_metadata r))) None).
  repeat split.
  - exact Hl.
  - rewrite Hd. now rewrite !app_assoc.
  - rewrite !separators_cons by apply escape_csv_is_field.
    now rewrite (separators_single _ _ (escape_csv_is_field _ _)).
  - exact Hn.
  - now rewrite Hf.
  - now rewrite Hf.
Qed.

Lemma empty_custom_counts_give_an_empty_field_witness :
  is_header Sample.no_counts = false
  /\ (custom_counts Sample.no_counts = VNone
      \/ custom_counts Sample.no_counts = VDict [])
  /\ exists line before : string,
       csv_line Sample.no_counts = (custom_counts Sample.no_counts, inr line)
       /\ line = before ++ ","
       /\ Reader.separators before = 6%nat
       /\ Reader.separators line = 7%nat
       /\ List.length (Reader.split_row line) = 8%nat
       /\ List.nth 7 (Reader.split_row line) "?" = "".
Proof.
  split; [reflexivity|]. split; [right; reflexivity|].
  exact (empty_custom_counts_give_an_empty_field
           Sample.no_counts eq_refl (or_intror eq_refl)).
Defined.

(** C10. When [json_metadata] is [None] in a data record, the seventh
    field of the line is the four characters [null]: absent metadata goes
    through the JSON dump like any other value. *)
Theorem absent_metadata_renders_as_null (r : row) (line : string) :
  is_header r = false ->
  json_metadata r = VNone ->
  snd (csv_line r) = inr line ->
  List.nth 6 (Reader.split_row line) "" = "null"
  /\ String.length (List.nth 6 (Reader.split_row line) "") = 4%nat.
Proof.
  intros Hh Hj Hl.
  destruct (csv_line_fields r line Hh Hl) as [Hf _].
  rewrite Hf, Hj. split; reflexivity.
Qed.

Lemma absent_metadata_renders_as_null_witness :
  is_header Sample.no_metadata = false
  /\ json_metadata Sample.no_metadata = VNone
  /\ exists line, snd (csv_line Sample.no_metadata) = inr line
                  /\ List.nth 6 (Reader.split_row line) "" = "null".
Proof.
  split; [reflexivity|]. split; [reflexivity|].
  assert (exists line, snd (csv_line Sample.no_metadata) = inr line)
    as [line Hl] by (eexists; vm_compute; reflexivity).
  exists line. split; [exact Hl|].
  exact (proj1 (absent_metadata_renders_as_null
                  Sample.no_metadata line eq_refl eq_refl Hl)).
Defined.

(** ** Quoting and unquoting *)

Section QuoteFacts.

Lemma drop_closing_quote (a : string) :
  Reader.drop_closing (a ++ String Str.dquote "") = a.
Proof.
  induction a as [|x a IH]; [reflexivity|].
  cbn [String.append Reader.drop_closing]. rewrite IH.
  destruct a; reflexivity.
Qed.

Lemma collapse_double_quotes (t : string) :
  Reader.collapse_quotes (Csv.double_quotes t) = t.
Proof.
  induction t as [|x t IH]; [reflexivity|].
  cbn [Csv.double_quotes].
  destruct (Ascii.eqb x Str.dquote) eqn:E.
  - cbn [Reader.collapse_quotes]. rewrite E. now rewrite IH.
  - cbn [Reader.collapse_quotes]. rewrite E. now rewrite IH.
Qed.

(** Unescaping a quoted field gives the text back. *)
Lemma unescape_quote_field (t : string) :
  Reader.unescape_field (Csv.quote_field t) = t.
Proof.
  unfold Csv.quote_field, quoted_by, Reader.unescape_field.
  rewrite Ascii.eqb_refl, drop_closing_quote.
  apply collapse_double_quotes.
Qed.

Lemma skip_padding_spaces (n : nat) (s : string) :
  Reader.skip_padding (Str.spaces n ++ Csv.quote_field s) = Csv.quote_field s.
Proof. induction n; [reflexivity | exact IHn]. Qed.

Lemma double_quotes_length (t : string) :
  (String.length t <= String.length (Csv.double_quotes t))%nat.
Proof.
  induction t as [|x t IH]; cbn [Csv.double_quotes]; [constructor|].
  destruct (Ascii.eqb x Str.dquote); cbn [String.length]; lia.
Qed.

Lemma quote_field_length (t : string) :
  (String.length t < String.length (Csv.quote_field t))%nat.
Proof.
  unfold Csv.quote_field, quoted_by. cbn [String.length].
  rewrite length_app. pose proof (double_quotes_length t).
  cbn [String.length]. lia.
Qed.

Lemma needs_quote_quote_field (t : string) :
  Csv.needs_quote (Csv.quote_field t) = true.
Proof. reflexivity. Qed.

(** A text that needs quotes is escaped into its quoted form; escaping
    that form once more gives a different, longer text. *)
Lemma escape_csv_quoted (t : string) :
  Csv.needs_quote t = true ->
  escape_csv (VStr t) None = Csv.quote_field t
  /\ escape_csv (VStr (escape_csv (VStr t) None)) None
     = Csv.quote_field (Csv.quote_field t)
  /\ escape_csv (VStr (escape_csv (VStr t) None)) None
     <> escape_csv (VStr t) None.
Proof.
  intros H.
  assert (E1 : escape_csv (VStr t) None = Csv.quote_field t).
  { rewrite escape_csv_None. cbn [Csv.field_text]. cbv zeta. now rewrite H. }
  assert (E2 : escape_csv (VStr (Csv.quote_field t)) None
               = Csv.quote_field (Csv.quote_field t)).
  { rewrite escape_csv_None. cbn [Csv.field_text]. cbv zeta.
    now rewrite needs_quote_quote_field. }
  rewrite E1, E2. repeat split.
  intros E. pose proof (quote_field_length (Csv.quote_field t)) as L.
  rewrite E in L. lia.
Qed.

End QuoteFacts.

(** ** The dump of a mapping *)

Section JsonFacts.

Lemma insert_item_cons {A : Type} (kv : string * A) (l : list (string * A)) :
  exists h t, Json.insert_item kv l = h :: t.
Proof.
  destruct l as [|h t]; cbn; [eauto|].
  destruct (String.leb (fst kv) (fst h)); eauto.
Qed.

Lemma sort_keys_cons {A : Type} (kv : string * A) (l : list (string * A)) :
  exists h t, Json.sort_keys (kv :: l) = h :: t.
Proof. cbn. apply insert_item_cons. Qed.

Lemma join_first (sep : string) (c : ascii) (m : string) (ms : list string) :
  exists rest, Str.join sep (String c m :: ms) = String c rest.
Proof. destruct ms; cbn; eauto. Qed.

Lemma member_first (kv : string * string) :
  exists m, Json.member kv = String Str.dquote m.
Proof. unfold Json.member, Json.string_literal, quoted_by. cbn. eauto. Qed.

(** The dump of a mapping that is not empty starts with a brace and a
    quote, so the writer has to quote it. *)
Lemma dumps_dict_needs_quote (d : dict) :
  d <> [] -> Csv.needs_quote (Json.dumps (VDict d)) = true.
Proof.
  destruct d as [|kv d]; [congruence|]. intros _.
  cbn [Json.dumps List.map]. unfold Json.object_text.
  destruct (sort_keys_cons (fst kv, Json.dumps (snd kv))
              (List.map (fun kv => (fst kv, Json.dumps (snd kv))) d))
    as (h & t & ->).
  cbn [List.map].
  destruct (member_first h) as [m ->].
  destruct (join_first "," Str.dquote m (List.map Json.member t)) as [rest ->].
  reflexivity.
Qed.

End JsonFacts.

(** ** The coercion loop *)

Section CountsFacts.

Local Open Scope list_scope.

Lemma dict_get_app (done : dict) (k : string) (v : pyval) (t : dict) :
  ~ In k (List.map fst done) ->
  Counts.dict_get (done ++ (k, v) :: t) k = Some v.
Proof.
  induction done as [|[k' v'] done IH]; cbn [List.app Counts.dict_get List.map fst].
  - intros _. now rewrite String.eqb_refl.
  - intros H. destruct (String.eqb_spec k k') as [->|N].
    + exfalso. apply H. now left.
    + apply IH. intros I. apply H. now right.
Qed.

Lemma dict_set_app (done : dict) (k : string) (v v' : pyval) (t : dict) :
  ~ In k (List.map fst done) ->
  Counts.dict_set (done ++ (k, v) :: t) k v' = done ++ (k, v') :: t.
Proof.
  induction done as [|[k0 v0] done IH]; cbn [List.app Counts.dict_set List.map fst].
  - intros _. now rewrite String.eqb_refl.
  - intros H. destruct (String.eqb_spec k k0) as [->|N].
    + exfalso. apply H. now left.
    + rewrite IH; [reflexivity|]. intros I. apply H. now right.
Qed.

Lemma dict_set_nonempty (d : dict) (k : string) (v : pyval) :
  Counts.dict_set d k v <> [].
Proof.
  destruct d as [|[k' v'] d]; cbn; [discriminate|].
  destruct (String.eqb k k'); discriminate.
Qed.

Lemma coerce_dict_nonempty (keys : list string) (d : dict) :
  d <> [] -> fst (Counts.coerce_dict keys d) <> [].
Proof.
  revert d; induction keys as [|k ks IH]; intros d Hd; cbn; [exact Hd|].
  destruct (Counts.dict_get d k) as [v|]; [|exact Hd].
  destruct (PyInt.int v) as [e|n]; [exact Hd|].
  apply IH, dict_set_nonempty.
Qed.

(** On distinct keys the loop visits the entries in order and rewrites
    each in its place. *)
Lemma coerce_dict_entries_from (todo done : dict) :
  NoDup (List.map fst (done ++ todo)) ->
  Counts.coerce_dict (List.map fst todo) (done ++ todo) =
  (done ++ fst (Counts.coerce_entries todo), snd (Counts.coerce_entries todo)).
Proof.
  revert done; induction todo as [|[k v] t IH]; intros done Hn.
  - reflexivity.
  - assert (Hk : ~ In k (List.map fst done)).
    { rewrite List.map_app in Hn. cbn in Hn.
      apply NoDup_remove_2 in Hn. intros I. apply Hn.
      apply in_or_app. now left. }
    cbn [List.map fst Counts.coerce_dict Counts.coerce_entries].
    rewrite dict_get_app by exact Hk.
    destruct (PyInt.int v) as [e|n]; [reflexivity|].
    rewrite dict_set_app by exact Hk.
    change (done ++ (k, VInt n) :: t) with (done ++ [(k, VInt n)] ++ t).
    rewrite List.app_assoc. rewrite IH.
    + destruct (Counts.coerce_entries t) as [t' r]. cbn [fst snd].
      now rewrite <- List.app_assoc.
    + rewrite <- List.app_assoc. cbn [List.app].
      rewrite List.map_app in *. exact Hn.
Qed.

Lemma coerce_dict_entries (d : dict) :
  NoDup (List.map fst d) ->
  Counts.coerce_dict (List.map fst d) d = Counts.coerce_entries d.
Proof.
  intros Hn. pose proof (coerce_dict_entries_from d [] Hn) as H.
  cbn [List.app] in H. rewrite H.
  now destruct (Counts.coerce_entries d).
Qed.

(** When no value is refused, every entry has been coerced. *)
Lemma coerce_entries_done (d : dict) :
  snd (Counts.coerce_entries d) = inr tt ->
  Forall2 Counts.coerced_to d (fst (Counts.coerce_entries d)).
Proof.
  induction d as [|[k v] t IH]; cbn [Counts.coerce_entries]; [constructor|].
  destruct (PyInt.int v) as [e|n] eqn:E; [discriminate|].
  destruct (Counts.coerce_entries t) as [t' r]. cbn [fst snd] in *.
  intros Hr. constructor; [|auto].
  split; [reflexivity|]. exists n. auto.
Qed.

(** When a value is refused, the entries before it have been coerced and
    the others are as they were. *)
Lemma coerce_entries_failed (d : dict) (e : exn) :
  snd (Counts.coerce_entries d) = inl e ->
  exists (pre pre' : dict) (k : string) (v : pyval) (post : dict),
    d = pre ++ (k, v) :: post
    /\ Forall2 Counts.coerced_to pre pre'
    /\ PyInt.int v = inl e
    /\ fst (Counts.coerce_entries d) = pre' ++ (k, v) :: post.
Proof.
  induction d as [|[k v] t IH]; cbn [Counts.coerce_entries]; [discriminate|].
  destruct (PyInt.int v) as [e'|n] eqn:E.
  - cbn. intros [= ->]. exists [], [], k, v, t. repeat split; [constructor | exact E].
  - destruct (Counts.coerce_entries t) as [t' r]. cbn [fst snd] in *.
    intros Hr. destruct (IH Hr) as (pre & pre' & k1 & v1 & post & -> & Hp & Hv & ->).
    exists ((k, v) :: pre), ((k, VInt n) :: pre'), k1, v1, post.
    repeat split; [|exact Hv].
    constructor; [|exact Hp]. split; [reflexivity|]. exists n. auto.
Qed.

(** A value that [int] refuses makes the loop fail. *)
Lemma coerce_entries_refused (d : dict) (k : string) (v : pyval) (e : exn) :
  In (k, v) d -> PyInt.int v = inl e ->
  exists e', snd (Counts.coerce_entries d) = inl e'.
Proof.
  induction d as [|[k0 v0] t IH]; cbn [Counts.coerce_entries In]; [tauto|].
  intros [[= -> ->]|Hi] Hv.
  - rewrite Hv. cbn. eauto.
  - destruct (PyInt.int v0) as [e0|n]; [cbn; eauto|].
    destruct (IH Hi Hv) as [e' He'].
    destruct (Counts.coerce_entries t) as [t' r]. cbn [snd] in *. eauto.
Qed.

(** Values that are already ints stay as they are. *)
Lemma coerce_entries_ints (d : dict) :
  Forall (fun kv => exists n, snd kv = VInt n) d ->
  Counts.coerce_entries d = (d, inr tt).
Proof.
  induction 1 as [|[k v] t [n Hn] _ IH]; [reflexivity|].
  cbn in Hn. subst v. cbn [Counts.coerce_entries PyInt.int]. now rewrite IH.
Qed.

Lemma int_errors (v : pyval) (e : exn) :
  PyInt.int v = inl e -> e = TypeError \/ e = ValueError \/ e = OverflowError.
Proof.
  destruct v as [| b | n | x | s | l | d]; cbn; try discriminate;
    try (intros [= <-]; auto).
  - destruct x; try discriminate; intros [= <-]; auto.
  - unfold PyInt.of_str.
    destruct (match PyInt.lstrip s with
              | String "-" r => option_map Z.opp (PyInt.digits r 0 false)
              | String "+" r => PyInt.digits r 0 false
              | _ => PyInt.digits (PyInt.lstrip s) 0 false
              end); [discriminate|]. intros [= <-]; auto.
Qed.

(** The object after the call and the outcome, for a data record whose
    [custom_counts] is a dict with entries. *)
Lemma csv_line_dict (r : row) (d : dict) :
  is_header r = false -> custom_counts r = VDict d -> d <> [] ->
  fst (csv_line r) = VDict (fst (Counts.coerce_dict (List.map fst d) d))
  /\ (forall e, snd (Counts.coerce_dict (List.map fst d) d) = inl e ->
                snd (csv_line r) = inl e)
  /\ (forall line, snd (csv_line r) = inr line ->
                   snd (Counts.coerce_dict (List.map fst d) d) = inr tt).
Proof.
  intros Hh Hc Hd. unfold csv_line, preformat. rewrite Hh, Hc. cbn [negb].
  assert (Ht : PyStr.truthy (VDict d) = true) by (destruct d; [congruence | reflexivity]).
  rewrite Ht. cbn [Counts.coerce].
  destruct (Counts.coerce_dict (List.map fst d) d) as [d' [e|[]]]; cbn.
  - repeat split; [now intros e' [= ->] | discriminate].
  - repeat split. discriminate.
Qed.

End CountsFacts.

(** ** The escaper *)

(** C2 (the claim as stated fails).  A text with white space around it is
    not left as it is: [" a "] comes out as ["a"]; and the empty text,
    which has no comma, quote or line break, comes out in quotes. *)
Lemma escape_csv_strips_white_space :
  escape_csv (VStr " a ") None = "a"
  /\ rfc4180_field " a " = " a "
  /\ escape_csv (VStr " a ") None <> rfc4180_field " a "
  /\ rfc4180_field "" = ""
  /\ escape_csv (VStr "") None = Csv.quote_field ""
  /\ escape_csv (VStr "") None <> rfc4180_field "".
Proof. repeat split; try reflexivity; vm_compute; discriminate. Qed.

(** C2 (as amended).  [escape_csv] writes the value as one field, in
    quotes with its quotes doubled exactly when the text has a comma, a
    quote or a line break, and strips the white space at both ends of what
    was written, which takes the record terminator away: a quoted field is
    left as it is, an unquoted text loses its leading and trailing white
    space.  The empty text is written as a pair of quotes.  A width pads
    the result on the left. *)
Theorem escape_csv_writes_one_stripped_field (v : pyval) :
  escape_csv v None =
    (if String.eqb (Csv.field_text v) "" then Csv.quote_field ""
     else Str.strip (rfc4180_field (Csv.field_text v)))
  /\ Str.strip (Csv.quote_field (Csv.field_text v))
     = Csv.quote_field (Csv.field_text v)
  /\ (forall suffix : string,
        Str.strip (suffix ++ Csv.line_terminator) = Str.strip suffix)
  /\ (forall width : Z,
        escape_csv v (Some width) = Str.rjust (escape_csv v None) width)
  /\ (forall width : option Z, Reader.is_field (escape_csv v width)).
Proof.
  repeat split.
  - rewrite escape_csv_None. cbv zeta. unfold rfc4180_field.
    destruct (String.eqb_spec (Csv.field_text v) "") as [E|E].
    + rewrite E. reflexivity.
    + destruct (Csv.needs_quote (Csv.field_text v)); cbn [orb].
      * symmetry. apply strip_quoted.
      * reflexivity.
  - apply strip_quoted.
  - apply strip_terminator.
  - apply escape_csv_is_field.
Qed.

(** C4.  A text with a comma, a quote or a line break comes back from its
    escaped form: the escaped text is one field for the reader, and
    removing its surrounding quotes and collapsing its doubled quotes
    gives the text.  With a width the field has spaces before its opening
    quote, and the text comes back once they are skipped. *)
Theorem escaped_text_reads_back (t : string) (width : option Z) :
  Str.mem Str.comma t = true \/ Str.mem Str.dquote t = true
  \/ Str.mem Str.LF t = true \/ Str.mem Str.CR t = true ->
  Reader.split_row (escape_csv (VStr t) None) = [escape_csv (VStr t) None]
  /\ Reader.unescape_field (escape_csv (VStr t) None) = t
  /\ Reader.split_row (escape_csv (VStr t) width) = [escape_csv (VStr t) width]
  /\ Reader.unescape_field (Reader.skip_padding (escape_csv (VStr t) width)) = t.
Proof.
  intros H.
  assert (Hq : Csv.needs_quote t = true).
  { rewrite needs_quote_mem.
    destruct H as [-> | [-> | [-> | ->]]]; rewrite ?orb_true_r; reflexivity. }
  destruct (escape_csv_quoted t Hq) as (E & _).
  repeat split.
  - apply (split_row_single _ false), escape_csv_is_field.
  - rewrite E. apply unescape_quote_field.
  - apply (split_row_single _ false), escape_csv_is_field.
  - destruct (escape_csv_padding (VStr t) width) as [n ->].
    rewrite E, skip_padding_spaces. apply unescape_quote_field.
Qed.

Lemma escaped_text_reads_back_witness :
  (Str.mem Str.comma "a,b" = true \/ Str.mem Str.dquote "a,b" = true
   \/ Str.mem Str.LF "a,b" = true \/ Str.mem Str.CR "a,b" = true)
  /\ Reader.unescape_field (escape_csv (VStr "a,b") None) = "a,b"
  /\ Reader.unescape_field
       (Reader.skip_padding (escape_csv (VStr "a,b") (Some 10))) = "a,b".
Proof.
  split; [left; reflexivity|].
  destruct (escaped_text_reads_back "a,b" (Some 10) (or_introl eq_refl))
    as (_ & H1 & _ & H2).
  split; assumption.
Defined.

(** ** The custom counts *)

(** C1 (the claim as stated fails).  For [custom_counts = {"x": 3.0,
    "y": 1}] the eighth field of the line is the dump [{"x":3,"y":1}]
    escaped once; the text escaped twice is another, longer text. *)
Lemma custom_counts_are_not_escaped_twice :
  exists line : string,
    snd (csv_line Sample.full) = inr line
    /\ Json.dumps (fst (csv_line Sample.full)) = Sample.counts_json
    /\ List.nth 7 (Reader.split_row line) ""
       = escape_csv (VStr Sample.counts_json) None
    /\ List.nth 7 (Reader.split_row line) ""
       <> escape_csv (VStr (escape_csv (VStr Sample.counts_json) None)) None.
Proof.
  eexists. split; [vm_compute; reflexivity|].
  split; [vm_compute; reflexivity|].
  split; [vm_compute; reflexivity|].
  vm_compute. discriminate.
Qed.

(** C1 (as amended).  For a mapping with entries, [csv_line] escapes the
    custom counts once: the eighth field of the line is the canonical
    dump of the coerced mapping in quotes with its quotes doubled, the
    last pass does not escape that text again, and unescaping the field
    once gives the dump. *)
Theorem custom_counts_are_escaped_once (r : row) (d : dict) (line : string) :
  is_header r = false ->
  custom_counts r = VDict d ->
  d <> [] ->
  snd (csv_line r) = inr line ->
  exists d' : dict,
    fst (csv_line r) = VDict d'
    /\ List.nth 7 (Reader.split_row line) ""
       = escape_csv (VStr (Json.dumps (VDict d'))) None
    /\ List.nth 7 (Reader.split_row line) ""
       = Csv.quote_field (Json.dumps (VDict d'))
    /\ Reader.unescape_field (List.nth 7 (Reader.split_row line) "")
       = Json.dumps (VDict d')
    /\ List.nth 7 (Reader.split_row line) ""
       <> escape_csv (VStr (escape_csv (VStr (Json.dumps (VDict d'))) None)) None.
Proof.
  intros Hh Hc Hd Hl.
  destruct (csv_line_dict r d Hh Hc Hd) as (Ho & _ & _).
  destruct (csv_line_fields r line Hh Hl) as [Hf _].
  assert (Ht : PyStr.truthy (custom_counts r) = true)
    by (rewrite Hc; destruct d; [congruence | reflexivity]).
  rewrite Ht, Ho in Hf.
  set (d' := fst (Counts.coerce_dict (List.map fst d) d)) in *.
  assert (Hq : Csv.needs_quote (Json.dumps (VDict d')) = true)
    by (apply dumps_dict_needs_quote, coerce_dict_nonempty, Hd).
  destruct (escape_csv_quoted _ Hq) as (E1 & _ & E3).
  exists d'. rewrite Hf. cbn [List.nth].
  repeat split.
  - exact Ho.
  - exact E1.
  - rewrite E1. apply unescape_quote_field.
  - intros E. apply E3. now rewrite <- E.
Qed.

Lemma custom_counts_are_escaped_once_witness :
  is_header Sample.full = false
  /\ custom_counts Sample.full = VDict Sample.counts
  /\ Sample.counts <> []
  /\ exists line d',
       snd (csv_line Sample.full) = inr line
       /\ fst (csv_line Sample.full) = VDict d'
       /\ List.nth 7 (Reader.split_row line) ""
          = Csv.quote_field (Json.dumps (VDict d')).
Proof.
  split; [reflexivity|]. split; [reflexivity|]. split; [discriminate|].
  assert (exists line, snd (csv_line Sample.full) = inr line) as [line Hl]
    by (eexists; vm_compute; reflexivity).
  assert (Hd : Sample.counts <> []) by discriminate.
  destruct (custom_counts_are_escaped_once
              Sample.full Sample.counts line eq_refl eq_refl Hd Hl)
    as (d' & Ho & _ & Hq & _).
  exists line, d'. repeat split; assumption.
Defined.

(** C3 (the claim as stated fails).  After the call on [custom_counts =
    {"x": 3.0, "y": 1}] the caller's mapping is [{"x": 3, "y": 1}]: the
    value of ["x"] is no longer the float. *)
Lemma csv_line_rewrites_custom_counts :
  custom_counts Sample.full
    = VDict [("x", VFloat Sample.three); ("y", VInt 1)]
  /\ fst (csv_line Sample.full) = VDict [("x", VInt 3); ("y", VInt 1)]
  /\ fst (csv_line Sample.full) <> custom_counts Sample.full
  /\ exists line, snd (csv_line Sample.full) = inr line.
Proof.
  split; [reflexivity|]. split; [vm_compute; reflexivity|].
  split; [vm_compute; discriminate|].
  eexists. vm_compute. reflexivity.
Qed.

(** C3 (as amended).  [csv_line] returns a new string and writes to one
    argument only, the [custom_counts] mapping of a data record, whose
    values it replaces in place by their integer coercions.  The mapping
    is as it was after a header call, when it is empty or absent, and when
    its values are ints already. *)
Theorem csv_line_writes_only_the_coerced_counts (r : row) :
  (is_header r = true \/ PyStr.truthy (custom_counts r) = false ->
   fst (csv_line r) = custom_counts r)
  /\ (forall d : dict,
        is_header r = false ->
        custom_counts r = VDict d ->
        NoDup (List.map fst d) ->
        (forall line, snd (csv_line r) = inr line ->
           exists d', fst (csv_line r) = VDict d'
                      /\ Forall2 Counts.coerced_to d d')
        /\ (Forall (fun kv => exists n, snd kv = VInt n) d ->
            fst (csv_line r) = custom_counts r)).
Proof.
  split.
  - unfold csv_line, preformat.
    intros [Hh | Ht].
    + rewrite Hh. reflexivity.
    + rewrite Ht. destruct (negb (is_header r)); reflexivity.
  - intros d Hh Hc Hn.
    destruct d as [|kv d0].
    { assert (E : fst (csv_line r) = custom_counts r).
      { unfold csv_line, preformat. rewrite Hh, Hc. reflexivity. }
      split.
      - intros line _. exists []. rewrite E, Hc. split; [reflexivity | constructor].
      - intros _. exact E. }
    assert (Hd : kv :: d0 <> []) by discriminate.
    destruct (csv_line_dict r _ Hh Hc Hd) as (Ho & _ & Hok).
    rewrite (coerce_dict_entries _ Hn) in Ho, Hok.
    split.
    + intros line Hl. eexists. split; [exact Ho|].
      apply coerce_entries_done. now apply (Hok line).
    + intros Hi. rewrite Ho, (coerce_entries_ints _ Hi). now rewrite Hc.
Qed.

Lemma csv_line_writes_only_the_coerced_counts_witness :
  (is_header header_row = true \/ PyStr.truthy (custom_counts header_row) = false)
  /\ fst (csv_line header_row) = custom_counts header_row
  /\ is_header Sample.full = false
  /\ custom_counts Sample.full = VDict Sample.counts
  /\ NoDup (List.map fst Sample.counts)
  /\ exists line d',
       snd (csv_line Sample.full) = inr line
       /\ fst (csv_line Sample.full) = VDict d'
       /\ Forall2 Counts.coerced_to Sample.counts d'.
Proof.
  split; [left; reflexivity|].
  split.
  { exact (proj1 (csv_line_writes_only_the_coerced_counts header_row)
             (or_introl eq_refl)). }
  split; [reflexivity|]. split; [reflexivity|].
  assert (Hn : NoDup (List.map fst Sample.counts)).
  { cbn. repeat constructor; cbn; intuition discriminate. }
  split; [exact Hn|].
  assert (exists line, snd (csv_line Sample.full) = inr line) as [line Hl]
    by (eexists; vm_compute; reflexivity).
  destruct (proj2 (csv_line_writes_only_the_coerced_counts Sample.full)
              Sample.counts eq_refl eq_refl Hn) as [H _].
  destruct (H line Hl) as (d' & Ho & Hf).
  exists line, d'. repeat split; assumption.
Defined.

(** ** The eight columns *)

(** C7. The header and every data line that [csv_line] returns have the
    same layout: read back by splitting on the commas outside quotes, a
    line has eight fields and seven separators, in the order shots,
    errors, discards, seconds, decoder, strong_id, json_metadata,
    custom_counts.  The eighth field of a data line is the escaped dump
    of the [custom_counts] object as the call leaves it, a mapping with
    the caller's keys and their coerced values, and is empty when
    [custom_counts] is empty or absent.  No separator follows the eighth
    field and no line break ends the line. *)
Theorem header_and_data_lines_have_eight_fields (r : row) (line : string) :
  is_header r = false ->
  snd (csv_line r) = inr line ->
  Reader.split_row line =
    [ escape_csv (shots r) (Some 10);
      escape_csv (format_errors (errors r)) (Some 10);
      escape_csv (discards r) (Some 10);
      escape_csv (format_seconds (seconds r)) (Some 8);
      escape_csv (decoder r) None;
      escape_csv (strong_id r) None;
      escape_csv (VStr (Json.dumps (json_metadata r))) None;
      if PyStr.truthy (custom_counts r)
      then escape_csv (VStr (Json.dumps (fst (csv_line r)))) None
      else "" ]%list
  /\ List.length (Reader.split_row line) = 8%nat
  /\ Reader.separators line = 7%nat
  /\ Str.last_char line <> Some Str.LF
  /\ Str.last_char line <> Some Str.CR
  /\ snd (csv_line header_row) = inr CSV_HEADER
  /\ Reader.split_row CSV_HEADER =
       [ "     shots"; "    errors"; "  discards"; " seconds"; "decoder";
         "strong_id"; "json_metadata"; "custom_counts" ]%list
  /\ List.length (Reader.split_row CSV_HEADER) = List.length (Reader.split_row line)
  /\ Reader.separators CSV_HEADER = 7%nat
  /\ Str.last_char CSV_HEADER = Some "s"%char
  /\ (forall d : dict,
        custom_counts r = VDict d -> NoDup (List.map fst d) ->
        exists d' : dict,
          fst (csv_line r) = VDict d' /\ Forall2 Counts.coerced_to d d').
Proof.
  intros Hh Hl.
  destruct (csv_line_fields r line Hh Hl) as [Hf Hs].
  destruct (csv_line_last_char r line Hh Hl) as (c & Hc & Hk).
  split; [exact Hf|].
  split; [now rewrite Hf|].
  split; [exact Hs|].
  split; [rewrite Hc; intros [= ->]; destruct Hk as [Hk|Hk]; discriminate Hk|].
  split; [rewrite Hc; intros [= ->]; destruct Hk as [Hk|Hk]; discriminate Hk|].
  split; [reflexivity|].
  split; [reflexivity|].
  split; [now rewrite Hf|].
  split; [reflexivity|].
  split; [reflexivity|].
  intros d Hd Hn.
  destruct d as [|kv d0].
  - exists []%list. split; [|constructor].
    destruct (csv_line_no_counts r Hh) as [line' E]; [now rewrite Hd|].
    now rewrite E, Hd.
  - assert (Hne : (kv :: d0)%list <> []%list) by discriminate.
    destruct (csv_line_dict r _ Hh Hd Hne) as (Ho & _ & Hok).
    rewrite (coerce_dict_entries _ Hn) in Ho, Hok.
    eexists. split; [exact Ho|].
    apply coerce_entries_done. now apply (Hok line).
Qed.

Lemma header_and_data_lines_have_eight_fields_witness :
  is_header Sample.full = false
  /\ (exists line, snd (csv_line Sample.full) = inr line
                   /\ List.length (Reader.split_row line) = 8%nat
                   /\ Reader.separators line = 7%nat
                   /\ List.nth 7 (Reader.split_row line) ""
                      = escape_csv
                          (VStr (Json.dumps (fst (csv_line Sample.full)))) None).
Proof.
  split; [reflexivity|].
  assert (exists line, snd (csv_line Sample.full) = inr line) as [line Hl]
    by (eexists; vm_compute; reflexivity).
  exists line. split; [exact Hl|].
  destruct (header_and_data_lines_have_eight_fields Sample.full line eq_refl Hl)
    as (Hf & Hn & Hs & _).
  split; [exact Hn|]. split; [exact Hs|].
  now rewrite Hf.
Defined.

(** What [int] refuses: the values that do not stand for an integer and
    are not finite floats. *)
Lemma int_refuses_iff (v : pyval) :
  (exists e, PyInt.int v = inl e)
  <-> (Whole.represents_integer v = false
       /\ forall x, v = VFloat x -> PyFloat.finite x = false).
Proof.
  destruct v as [| b | n | x | s | l | d]; cbn [PyInt.int Whole.represents_integer].
  - split; [intros _; split; [reflexivity | discriminate] | eauto].
  - split; [intros [e H]; discriminate | intros [H _]; discriminate].
  - split; [intros [e H]; discriminate | intros [H _]; discriminate].
  - destruct x as [s|s| |s m e].
    + split; [intros [e H]; discriminate | intros [H _]; discriminate].
    + split; [|eauto]. intros _. split; [reflexivity|]. now intros x [= <-].
    + split; [|eauto]. intros _. split; [reflexivity|]. now intros x [= <-].
    + split; [intros [e' H]; discriminate|].
      intros [_ H]. specialize (H _ eq_refl). discriminate.
  - destruct (PyInt.of_str s) as [e|n].
    + split; [|eauto]. intros _. split; [reflexivity | discriminate].
    + split; [intros [e H]; discriminate | intros [H _]; discriminate].
  - split; [intros _; split; [reflexivity | discriminate] | eauto].
  - split; [intros _; split; [reflexivity | discriminate] | eauto].
Qed.

(** [int] of a finite float is its magnitude rounded down, with its
    sign. *)
Lemma int_truncates (s : bool) (m : positive) (e : Z) :
  exists a : Z,
    0 <= a
    /\ PyInt.int (VFloat (S754_finite s m e)) = inr (if s then - a else a)
    /\ a * 2 ^ Z.max 0 (- e) <= Z.pos m * 2 ^ Z.max 0 e
        < (a + 1) * 2 ^ Z.max 0 (- e).
Proof.
  cbn [PyInt.int]. unfold PyFloat.trunc.
  destruct (Z.leb_spec 0 e) as [He|He].
  - exists (Z.pos m * 2 ^ e).
    assert (0 < 2 ^ e) by (apply Z.pow_pos_nonneg; lia).
    rewrite (Z.max_l 0 (- e)), (Z.max_r 0 e) by lia.
    rewrite Z.pow_0_r. repeat split; (lia || nia).
  - exists (Z.pos m / 2 ^ (- e)).
    assert (Hp : 0 < 2 ^ (- e)) by (apply Z.pow_pos_nonneg; lia).
    rewrite (Z.max_r 0 (- e)), (Z.max_l 0 e) by lia.
    rewrite Z.pow_0_r, Z.mul_1_r.
    pose proof (Z.div_pos (Z.pos m) _ ltac:(lia) Hp).
    pose proof (Z.mul_div_le (Z.pos m) _ Hp).
    pose proof (Z.mul_succ_div_gt (Z.pos m) _ Hp).
    repeat split; (lia || nia).
Qed.

(** C8 (the claim as stated fails).  [2.9] cannot be represented as an
    integer, yet with [custom_counts = {"p": 2.9}] the call does not fail:
    [int] truncates the value, the caller's mapping becomes [{"p": 2}] and
    the eighth field of the line is the dump of that. *)
Lemma fractional_count_is_truncated_not_refused :
  Whole.represents_integer (VFloat Whole.two_9) = false
  /\ PyFloat.repr Whole.two_9 = "2.9"
  /\ PyInt.int (VFloat Whole.two_9) = inr 2
  /\ exists line : string,
       csv_line Whole.fractional = (VDict [("p", VInt 2)], inr line)
       /\ List.nth 7 (Reader.split_row line) ""
          = Csv.quote_field ("{" ++ Sample.q "p" ++ ":2}").
Proof.
  split; [reflexivity|]. split; [vm_compute; reflexivity|].
  split; [reflexivity|].
  eexists. split; vm_compute; reflexivity.
Qed.

(** C8 (as amended).  When [int] raises on a value of a [custom_counts]
    mapping, [csv_line] raises: the caller gets the exception of the first
    such value, a [TypeError], [ValueError] or [OverflowError], and no
    line.  The entries before that value have been coerced in the
    caller's mapping by then; that entry and the ones after it are as
    they were.  [int] raises on the values that do not stand for an
    integer, except the finite floats: a finite float is never refused,
    it is rounded towards zero. *)
Theorem refused_count_fails_the_call
  (r : row) (d : dict) (k : string) (v : pyval) (e0 : exn) :
  is_header r = false ->
  custom_counts r = VDict d ->
  NoDup (List.map fst d) ->
  In (k, v) d ->
  PyInt.int v = inl e0 ->
  (exists (e : exn) (pre pre' : dict) (k1 : string) (v1 : pyval) (post : dict),
     d = (pre ++ (k1, v1) :: post)%list
     /\ Forall2 Counts.coerced_to pre pre'
     /\ PyInt.int v1 = inl e
     /\ csv_line r = (VDict (pre' ++ (k1, v1) :: post)%list, inl e)
     /\ (e = TypeError \/ e = ValueError \/ e = OverflowError))
  /\ (forall v' : pyval,
        (exists e', PyInt.int v' = inl e')
        <-> (Whole.represents_integer v' = false
             /\ forall x, v' = VFloat x -> PyFloat.finite x = false))
  /\ (forall (s : bool) (m : positive) (e : Z),
        exists a : Z,
          0 <= a
          /\ PyInt.int (VFloat (S754_finite s m e)) = inr (if s then - a else a)
          /\ a * 2 ^ Z.max 0 (- e) <= Z.pos m * 2 ^ Z.max 0 e
              < (a + 1) * 2 ^ Z.max 0 (- e)).
Proof.
  intros Hh Hc Hn Hi Hv.
  split; [|split].
  - assert (Hd : d <> []%list) by (intros ->; destruct Hi).
    destruct (csv_line_dict r d Hh Hc Hd) as (Ho & Hfail & _).
    rewrite (coerce_dict_entries _ Hn) in Ho, Hfail.
    destruct (coerce_entries_refused d k v e0 Hi Hv) as [e He].
    destruct (coerce_entries_failed d e He)
      as (pre & pre' & k1 & v1 & post & Hsplit & Hp & Hv1 & Hfst).
    exists e, pre, pre', k1, v1, post.
    repeat split; try assumption.
    + rewrite (surjective_pairing (csv_line r)), Ho, (Hfail e He), Hfst.
      reflexivity.
    + exact (int_errors v1 e Hv1).
  - apply int_refuses_iff.
  - apply int_truncates.
Qed.

Lemma refused_count_fails_the_call_witness :
  is_header Sample.failing = false
  /\ custom_counts Sample.failing = VDict Sample.bad_counts
  /\ NoDup (List.map fst Sample.bad_counts)
  /\ In ("y", VStr "many") Sample.bad_counts
  /\ PyInt.int (VStr "many") = inl ValueError
  /\ exists e d', csv_line Sample.failing = (VDict d', inl e).
Proof.
  split; [reflexivity|]. split; [reflexivity|].
  assert (Hn : NoDup (List.map fst Sample.bad_counts)).
  { cbn. repeat constructor; cbn; intuition discriminate. }
  split; [exact Hn|].
  assert (Hi : In ("y", VStr "many") Sample.bad_counts) by (right; left; reflexivity).
  split; [exact Hi|]. split; [reflexivity|].
  destruct (proj1 (refused_count_fails_the_call
                     Sample.failing Sample.bad_counts "y" (VStr "many") ValueError
                     eq_refl eq_refl Hn Hi eq_refl))
    as (e & pre & pre' & k1 & v1 & post & _ & _ & _ & H & _).
  exists e. eexists. exact H.
Defined.

Example refused_count_example :
  csv_line Sample.failing
  = (VDict [("x", VInt 3); ("y", VStr "many"); ("z", VFloat Sample.three)],
     inl ValueError).
Proof. vm_compute. reflexivity. Qed.

(** ** Sorting the keys *)

Section SortFacts.

Local Open Scope list_scope.

Lemma leb_refl (a : string) : String.leb a a = true.
Proof.
  unfold String.leb.
  pose proof (proj2 (String_as_OT.cmp_eq a a) eq_refl) as H.
  unfold String_as_OT.cmp in H. now rewrite H.
Qed.

Lemma leb_trans (a b c : string) :
  String.leb a b = true -> String.leb b c = true -> String.leb a c = true.
Proof.
  unfold String.leb.
  destruct (String.compare a b) eqn:Eab; [| |discriminate];
    destruct (String.compare b c) eqn:Ebc; try discriminate; intros _ _.
  - apply String_as_OT.cmp_eq in Eab. subst b. now rewrite Ebc.
  - apply String_as_OT.cmp_eq in Eab. subst b. now rewrite Ebc.
  - apply String_as_OT.cmp_eq in Ebc. subst c. now rewrite Eab.
  - apply String_as_OT.cmp_lt in Eab, Ebc.
    pose proof (String_as_OT.lt_trans _ _ _ Eab Ebc) as H.
    apply String_as_OT.cmp_lt in H. unfold String_as_OT.cmp in H.
    now rewrite H.
Qed.

Context {A : Type}.

Implicit Types (kv : string * A) (l : list (string * A)).

Lemma insert_item_perm kv l : Permutation (Json.insert_item kv l) (kv :: l).
Proof.
  induction l as [|h t IH]; cbn; [reflexivity|].
  destruct (String.leb (fst kv) (fst h)); [reflexivity|].
  rewrite IH. apply perm_swap.
Qed.

Lemma sort_keys_perm l : Permutation (Json.sort_keys l) l.
Proof.
  induction l as [|kv t IH]; cbn; [reflexivity|].
  rewrite insert_item_perm. now constructor.
Qed.

Lemma insert_item_sorted kv l :
  StronglySorted Json.key_le l -> StronglySorted Json.key_le (Json.insert_item kv l).
Proof.
  induction 1 as [|h t Hs IH Hh]; cbn; [repeat constructor|].
  destruct (String.leb (fst kv) (fst h)) eqn:E.
  - constructor; [now constructor|].
    constructor; [exact E|].
    eapply Forall_impl; [|exact Hh].
    intros x Hx. exact (leb_trans _ _ _ E Hx).
  - constructor; [exact IH|].
    eapply Permutation_Forall; [symmetry; apply insert_item_perm|].
    constructor; [|exact Hh].
    unfold Json.key_le. destruct (String.leb_total (fst h) (fst kv)) as [H|H];
      [exact H | congruence].
Qed.

Lemma sort_keys_sorted l : StronglySorted Json.key_le (Json.sort_keys l).
Proof.
  induction l as [|kv t IH]; cbn; [constructor|].
  now apply insert_item_sorted.
Qed.

Lemma keys_determine_entries l kv kv' :
  NoDup (List.map fst l) -> In kv l -> In kv' l -> fst kv = fst kv' -> kv = kv'.
Proof.
  induction l as [|h t IH]; cbn; [tauto|].
  intros Hn [->|Hi] [->|Hi'] E; [reflexivity| | |].
  - exfalso. apply NoDup_cons_iff in Hn as [Hn _]. apply Hn.
    rewrite E. now apply in_map.
  - exfalso. apply NoDup_cons_iff in Hn as [Hn _]. apply Hn.
    rewrite <- E. now apply in_map.
  - apply NoDup_cons_iff in Hn as [_ Hn]. now apply IH.
Qed.

(** Two sorted lists with the same entries, the keys being distinct, are
    the same list. *)
Lemma sorted_entries_unique l1 l2 :
  NoDup (List.map fst l1) ->
  StronglySorted Json.key_le l1 -> StronglySorted Json.key_le l2 ->
  Permutation l1 l2 -> l1 = l2.
Proof.
  revert l2; induction l1 as [|a t1 IH]; intros l2 Hn H1 H2 Hp.
  - now apply Permutation_nil in Hp.
  - destruct l2 as [|b t2].
    { symmetry in Hp. now apply Permutation_nil in Hp. }
    apply StronglySorted_inv in H1 as [H1 Ha].
    apply StronglySorted_inv in H2 as [H2 Hb].
    assert (E : a = b).
    { assert (Ia : In a (b :: t2)) by (apply (Permutation_in _ Hp); now left).
      assert (Ib : In b (a :: t1))
        by (apply (Permutation_in _ (Permutation_sym Hp)); now left).
      destruct Ia as [->|Ia]; [reflexivity|].
      destruct Ib as [->|Ib]; [reflexivity|].
      rewrite Forall_forall in Ha, Hb.
      apply (keys_determine_entries (a :: t1)); try assumption;
        [now left | now right |].
      apply String.leb_antisym; [apply (Ha _ Ib) | apply (Hb _ Ia)]. }
    subst b. f_equal.
    apply IH; try assumption.
    + cbn in Hn. now apply NoDup_cons_iff in Hn.
    + now apply Permutation_cons_inv in Hp.
Qed.

(** The sorted entries do not depend on the order of insertion. *)
Lemma sort_keys_order_free l1 l2 :
  NoDup (List.map fst l1) -> Permutation l1 l2 ->
  Json.sort_keys l1 = Json.sort_keys l2.
Proof.
  intros Hn Hp. apply sorted_entries_unique.
  - apply (Permutation_NoDup (l := List.map fst l1)); [|exact Hn].
    apply Permutation_map. symmetry. apply sort_keys_perm.
  - apply sort_keys_sorted.
  - apply sort_keys_sorted.
  - rewrite !sort_keys_perm. exact Hp.
Qed.

End SortFacts.

(** ** The canonical dump of the mapping-valued fields *)

Section CanonicalDump.

Local Open Scope list_scope.

Lemma dumps_order_free (d1 d2 : dict) :
  NoDup (List.map fst d1) -> Permutation d1 d2 ->
  Json.dumps (VDict d1) = Json.dumps (VDict d2).
Proof.
  intros Hn Hp. cbn [Json.dumps]. unfold Json.object_text.
  rewrite (sort_keys_order_free
             (List.map (fun kv => (fst kv, Json.dumps (snd kv))) d1)
             (List.map (fun kv => (fst kv, Json.dumps (snd kv))) d2)).
  - reflexivity.
  - rewrite List.map_map. cbn [fst]. exact Hn.
  - now apply Permutation_map.
Qed.

Lemma format_errors_other (errors : pyval) :
  (forall d, errors <> VDict d) -> format_errors errors = errors.
Proof. destruct errors; try reflexivity. intros H. now destruct (H d). Qed.

End CanonicalDump.

(** C6.  In a data line every mapping-valued field is the canonical dump
    of the mapping, escaped: [json_metadata] always, [errors] when it is a
    mapping (any other value is escaped as it is), and a [custom_counts]
    with entries after the coercion of its values.  The dump has the
    entries in the order of their keys, a comma between two entries and a
    colon between a key and its value, and nothing else between them; it
    is the same text whatever the order of insertion, and [{"b": 1, "a":
    2}] is dumped as [{"a":2,"b":1}]. *)
Theorem mappings_are_dumped_canonically (r : row) (line : string) :
  is_header r = false ->
  snd (csv_line r) = inr line ->
  List.nth 6 (Reader.split_row line) ""
    = escape_csv (VStr (Json.dumps (json_metadata r))) None
  /\ (forall d, errors r = VDict d ->
        List.nth 1 (Reader.split_row line) ""
        = escape_csv (VStr (Json.dumps (VDict d))) (Some 10))
  /\ ((forall d, errors r <> VDict d) ->
        List.nth 1 (Reader.split_row line) ""
        = escape_csv (errors r) (Some 10))
  /\ (forall d, custom_counts r = VDict d -> d <> [] ->
        NoDup (List.map fst d) ->
        exists d', Forall2 Counts.coerced_to d d'
                   /\ List.nth 7 (Reader.split_row line) ""
                      = escape_csv (VStr (Json.dumps (VDict d'))) None)
  /\ (forall d : dict,
        exists items : list (string * string),
          Permutation items
            (List.map (fun kv => (fst kv, Json.dumps (snd kv))) d)
          /\ StronglySorted Json.key_le items
          /\ Json.dumps (VDict d)
             = "{" ++ Str.join ","
                        (List.map
                           (fun kv => Json.string_literal (fst kv) ++ ":" ++ snd kv)
                           items)
               ++ "}")
  /\ (forall d1 d2 : dict,
        NoDup (List.map fst d1) -> Permutation d1 d2 ->
        Json.dumps (VDict d1) = Json.dumps (VDict d2))
  /\ Json.dumps (VDict [("b", VInt 1); ("a", VInt 2)])
     = "{" ++ Sample.q "a" ++ ":2," ++ Sample.q "b" ++ ":1}"
  /\ Json.dumps (VDict [("a", VInt 2); ("b", VInt 1)])
     = "{" ++ Sample.q "a" ++ ":2," ++ Sample.q "b" ++ ":1}".
Proof.
  intros Hh Hl.
  destruct (csv_line_fields r line Hh Hl) as [Hf _].
  repeat split.
  - now rewrite Hf.
  - intros d He. rewrite Hf, He. reflexivity.
  - intros Hn. rewrite Hf, (format_errors_other _ Hn). reflexivity.
  - intros d Hc Hd Hn.
    destruct (csv_line_dict r d Hh Hc Hd) as (Ho & _ & Hok).
    rewrite (coerce_dict_entries _ Hn) in Ho, Hok.
    exists (fst (Counts.coerce_entries d)). split.
    + apply coerce_entries_done. now apply (Hok line).
    + rewrite Hf, Hc, Ho.
      destruct d; [congruence | reflexivity].
  - intros d.
    exists (Json.sort_keys (List.map (fun kv => (fst kv, Json.dumps (snd kv))) d)).
    split; [apply sort_keys_perm|].
    split; [apply sort_keys_sorted | reflexivity].
  - apply dumps_order_free.
Qed.

Lemma mappings_are_dumped_canonically_witness :
  is_header Sample.full = false
  /\ NoDup (List.map fst Sample.counts)
  /\ Permutation [("b", VInt 1); ("a", VInt 2)] [("a", VInt 2); ("b", VInt 1)]
  /\ exists line,
       snd (csv_line Sample.full) = inr line
       /\ List.nth 6 (Reader.split_row line) ""
          = escape_csv (VStr (Json.dumps (json_metadata Sample.full))) None
       /\ List.nth 1 (Reader.split_row line) ""
          = escape_csv (VStr (Json.dumps Sample.errors_by_kind)) (Some 10)
       /\ (exists d', Forall2 Counts.coerced_to Sample.counts d'
                      /\ List.nth 7 (Reader.split_row line) ""
                         = escape_csv (VStr (Json.dumps (VDict d'))) None)
       /\ Json.dumps (VDict [("b", VInt 1); ("a", VInt 2)])
          = Json.dumps (VDict [("a", VInt 2); ("b", VInt 1)]).
Proof.
  split; [reflexivity|].
  assert (Hn : NoDup (List.map fst Sample.counts)).
  { cbn. repeat constructor; cbn; intuition discriminate. }
  split; [exact Hn|].
  assert (Hp : Permutation [("b", VInt 1); ("a", VInt 2)]
                           [("a", VInt 2); ("b", VInt 1)]) by apply perm_swap.
  split; [exact Hp|].
  assert (Hm : NoDup (List.map fst [("b", VInt 1); ("a", VInt 2)])).
  { cbn. repeat constructor; cbn; intuition discriminate. }
  assert (Hd : Sample.counts <> []) by discriminate.
  assert (exists line, snd (csv_line Sample.full) = inr line) as [line Hl]
    by (eexists; vm_compute; reflexivity).
  destruct (mappings_are_dumped_canonically Sample.full line eq_refl Hl)
    as (H6 & H1 & _ & H7 & _ & Hfree & _).
  exists line. split; [exact Hl|]. split; [exact H6|].
  split; [exact (H1 _ eq_refl)|].
  split; [exact (H7 Sample.counts eq_refl Hd Hn)|].
  exact (Hfree _ _ Hm Hp).
Defined.

(** ** Decimal digits *)

Section DecimalFacts.

Lemma digit_char_is_digit (n : Z) :
  Str.is_digit (Str.digit_char (n mod 10)) = true.
Proof.
  pose proof (Z.mod_pos_bound n 10 eq_refl) as B.
  assert (H : n mod 10 = 0 \/ n mod 10 = 1 \/ n mod 10 = 2 \/ n mod 10 = 3
              \/ n mod 10 = 4 \/ n mod 10 = 5 \/ n mod 10 = 6
              \/ n mod 10 = 7 \/ n mod 10 = 8 \/ n mod 10 = 9) by lia.
  repeat (destruct H as [H|H]; [rewrite H; reflexivity|]).
  rewrite H; reflexivity.
Qed.

Lemma dec_digits_all_digits (fuel : nat) (n : Z) (acc : string) :
  Reader.all_digits acc = true ->
  Reader.all_digits (Str.dec_digits fuel n acc) = true.
Proof.
  revert n acc; induction fuel as [|f IH]; intros n acc H; cbn [Str.dec_digits].
  - exact H.
  - assert (H' : Reader.all_digits (String (Str.digit_char (n mod 10)) acc) = true)
      by (cbn [Reader.all_digits]; now rewrite digit_char_is_digit, H).
    destruct (n / 10 =? 0); [exact H' | now apply IH].
Qed.

Lemma dec_digits_head (fuel : nat) (n : Z) (c : ascii) (acc : string) :
  Str.is_digit c = true ->
  exists c' r, Str.dec_digits fuel n (String c acc) = String c' r
               /\ Str.is_digit c' = true.
Proof.
  revert n c acc; induction fuel as [|f IH]; intros n c acc H; cbn [Str.dec_digits].
  - eauto.
  - destruct (n / 10 =? 0).
    + eexists _, _. split; [reflexivity | apply digit_char_is_digit].
    + apply IH, digit_char_is_digit.
Qed.

Lemma dec_digits_length (fuel k : nat) (n : Z) (acc : string) :
  (1 <= k)%nat -> 0 <= n < 10 ^ Z.of_nat k ->
  (String.length (Str.dec_digits fuel n acc) <= k + String.length acc)%nat.
Proof.
  revert k n acc; induction fuel as [|f IH]; intros k n acc Hk Hn;
    cbn [Str.dec_digits]; [lia|].
  destruct (Z.eqb_spec (n / 10) 0) as [E|E]; [cbn [String.length]; lia|].
  destruct k as [|[|k]]; [lia | |].
  - exfalso. apply E. apply Z.div_small. cbn in Hn. lia.
  - specialize (IH (S k) (n / 10) (String (Str.digit_char (n mod 10)) acc)).
    cbn [String.length] in IH.
    assert (H10 : 10 ^ Z.of_nat (S (S k)) = 10 * 10 ^ Z.of_nat (S k)).
    { rewrite (Nat2Z.inj_succ (S k)). apply Z.pow_succ_r. lia. }
    assert (0 <= n / 10 < 10 ^ Z.of_nat (S k)).
    { split; [apply Z.div_pos; lia|].
      apply Z.div_lt_upper_bound; lia. }
    specialize (IH ltac:(lia) ltac:(assumption)). lia.
Qed.

Lemma of_nat_Z_all_digits (n : Z) : Reader.all_digits (Str.of_nat_Z n) = true.
Proof. now apply dec_digits_all_digits. Qed.

Lemma of_nat_Z_head (n : Z) :
  exists c r, Str.of_nat_Z n = String c r /\ Str.is_digit c = true.
Proof.
  unfold Str.of_nat_Z. cbn [Str.dec_digits].
  destruct (n / 10 =? 0).
  - eexists _, _. split; [reflexivity | apply digit_char_is_digit].
  - apply dec_digits_head, digit_char_is_digit.
Qed.

Lemma of_nat_Z_length (k : nat) (n : Z) :
  (1 <= k)%nat -> 0 <= n < 10 ^ Z.of_nat k ->
  (String.length (Str.of_nat_Z n) <= k)%nat.
Proof.
  intros Hk Hn. unfold Str.of_nat_Z.
  pose proof (dec_digits_length (S (Z.to_nat (Z.log2 n))) k n "" Hk Hn) as H.
  cbn [String.length] in H. lia.
Qed.

Lemma all_digits_app (a b : string) :
  Reader.all_digits (a ++ b) = Reader.all_digits a && Reader.all_digits b.
Proof.
  induction a as [|c a IH]; cbn [String.append Reader.all_digits]; [reflexivity|].
  now rewrite IH, andb_assoc.
Qed.

Lemma zeros_all_digits (n : nat) : Reader.all_digits (Str.zeros n) = true.
Proof. induction n; [reflexivity | exact IHn]. Qed.

Lemma zeros_length (n : nat) : String.length (Str.zeros n) = n.
Proof. induction n; cbn; congruence. Qed.

(** [zfill p] of a number below [10 ^ p] is [p] digits. *)
Lemma zfill_digits (p : nat) (n : Z) :
  (1 <= p)%nat -> 0 <= n < 10 ^ Z.of_nat p ->
  Reader.all_digits (Str.zfill p n) = true
  /\ String.length (Str.zfill p n) = p.
Proof.
  intros Hp Hn. unfold Str.zfill. split.
  - now rewrite all_digits_app, zeros_all_digits, of_nat_Z_all_digits.
  - rewrite length_app, zeros_length.
    pose proof (of_nat_Z_length p n Hp Hn). lia.
Qed.

Lemma is_digit_not_point (c : ascii) :
  Str.is_digit c = true -> Ascii.eqb c "." = false.
Proof.
  intros H. destruct (Ascii.eqb_spec c ".") as [->|]; [discriminate | reflexivity].
Qed.

Lemma split_point_digits (i f : string) :
  Reader.all_digits i = true ->
  Reader.split_point (i ++ String "." f) = Some (i, f).
Proof.
  induction i as [|c i IH]; cbn [String.append Reader.split_point Reader.all_digits].
  - now rewrite Ascii.eqb_refl.
  - intros H. apply andb_prop in H as [Hc Hi].
    now rewrite (is_digit_not_point c Hc), (IH Hi).
Qed.

Lemma digit_is_no_sign (c : ascii) (r : string) :
  Str.is_digit c = true ->
  match String c r with String "-" r' => r' | _ => String c r end = String c r.
Proof.
  intros H.
  destruct c as [[] [] [] [] [] [] [] []]; try reflexivity;
    vm_compute in H; discriminate H.
Qed.

(** A sign, the digits of a whole number, a point and [p] digits: a
    number with [p] decimal places. *)
Lemma fixed_digits_has_decimals (s : bool) (p : nat) (n : Z) :
  (1 <= p)%nat -> 0 <= n ->
  Reader.has_decimals p (PyFloat.sign_text s ++ PyFloat.fixed_digits p n) = true.
Proof.
  intros Hp Hn.
  destruct p as [|p']; [lia|]. set (p := S p') in *.
  assert (Hpow : 0 < 10 ^ Z.of_nat p) by (apply Z.pow_pos_nonneg; lia).
  destruct (zfill_digits p (n mod 10 ^ Z.of_nat p) Hp
              (Z.mod_pos_bound _ _ Hpow)) as [Hfd Hfl].
  destruct (of_nat_Z_head (n / 10 ^ Z.of_nat p)) as (c & r & Hi & Hc).
  pose proof (of_nat_Z_all_digits (n / 10 ^ Z.of_nat p)) as Hid.
  assert (Hbody :
    match PyFloat.sign_text s ++ PyFloat.fixed_digits p n with
    | String "-" r' => r'
    | _ => PyFloat.sign_text s ++ PyFloat.fixed_digits p n
    end = PyFloat.fixed_digits p n).
  { destruct s; [reflexivity|].
    change (PyFloat.sign_text false ++ PyFloat.fixed_digits p n)
      with (PyFloat.fixed_digits p n).
    unfold PyFloat.fixed_digits. subst p. cbv iota. rewrite Hi.
    cbn [String.append]. now apply digit_is_no_sign. }
  unfold Reader.has_decimals. rewrite Hbody.
  unfold PyFloat.fixed_digits. subst p. cbv iota.
  rewrite (split_point_digits _ _ Hid), Hid, Hfd, Hfl, Hi.
  rewrite Nat.eqb_refl. reflexivity.
Qed.

Lemma round_half_even_nonneg (num den : Z) :
  0 <= num -> 0 < den -> 0 <= PyFloat.round_half_even num den.
Proof.
  intros Hn Hd. unfold PyFloat.round_half_even.
  assert (0 <= num / den) by (apply Z.div_pos; lia).
  destruct (2 * (num mod den) ?= den); [|lia|lia].
  destruct (Z.even (num / den)); lia.
Qed.

Lemma scaled_round_nonneg (p : nat) (m : positive) (e : Z) :
  0 <= PyFloat.scaled_round p m e.
Proof.
  unfold PyFloat.scaled_round.
  assert (0 < 10 ^ Z.of_nat p) by (apply Z.pow_pos_nonneg; lia).
  destruct (Z.leb_spec 0 e).
  - assert (0 < 2 ^ e) by (apply Z.pow_pos_nonneg; lia).
    apply Z.mul_nonneg_nonneg; [apply Z.mul_nonneg_nonneg|]; lia.
  - apply round_half_even_nonneg; [|apply Z.pow_pos_nonneg; lia].
    apply Z.mul_nonneg_nonneg; lia.
Qed.

(** The text of a finite float with [p >= 1] places has [p] places. *)
Lemma format_f_has_decimals (p : nat) (x : spec_float) :
  (1 <= p)%nat -> PyFloat.finite x = true ->
  Reader.has_decimals p (PyFloat.format_f p x) = true.
Proof.
  intros Hp Hx. destruct x as [s|s| |s m e]; try discriminate;
    cbn [PyFloat.format_f]; apply fixed_digits_has_decimals; try assumption.
  - lia.
  - apply scaled_round_nonneg.
Qed.

Lemma ge_int_lt_int (x : spec_float) (n : Z) :
  PyFloat.ge_int x n = true -> PyFloat.lt_int x n = false.
Proof.
  destruct x as [s|s| |s m e]; cbn [PyFloat.ge_int PyFloat.lt_int].
  - intros H. apply Z.leb_le in H. apply Z.ltb_ge. exact H.
  - now destruct s.
  - discriminate.
  - destruct (0 <=? e); intros H; apply Z.leb_le in H; apply Z.ltb_ge; exact H.
Qed.

Lemma lt_int_ge_int (x : spec_float) (n : Z) :
  PyFloat.finite x = true ->
  PyFloat.lt_int x n = false -> PyFloat.ge_int x n = true.
Proof.
  destruct x as [s|s| |s m e]; try discriminate; intros _;
    cbn [PyFloat.ge_int PyFloat.lt_int].
  - intros H. apply Z.ltb_ge in H. now apply Z.leb_le.
  - destruct (0 <=? e); intros H; apply Z.ltb_ge in H; now apply Z.leb_le.
Qed.

Lemma lt_int_mono (x : spec_float) (a b : Z) :
  a <= b -> PyFloat.lt_int x a = true -> PyFloat.lt_int x b = true.
Proof.
  intros Hab. destruct x as [s|s| |s m e]; cbn [PyFloat.lt_int]; try easy.
  - intros H. apply Z.ltb_lt in H. apply Z.ltb_lt. lia.
  - destruct (Z.leb_spec 0 e) as [He|He]; intros H; apply Z.ltb_lt in H;
      apply Z.ltb_lt; [lia|].
    assert (0 < 2 ^ (- e)) by (apply Z.pow_pos_nonneg; lia). nia.
Qed.

End DecimalFacts.

(** ** The seconds *)

(** C5 (the claim as stated fails).  Infinity is a float that is at least
    [10.0]; it is rendered as [inf], which has no decimal place, and the
    field of the line is that text padded to eight characters. *)
Lemma infinite_seconds_have_no_decimal_place :
  PyFloat.ge_int Sample.infinity 10 = true
  /\ format_seconds (VFloat Sample.infinity) = VStr "inf"
  /\ Reader.has_decimals 1 "inf" = false
  /\ exists line : string,
       snd (csv_line (Sample.timed (VFloat Sample.infinity))) = inr line
       /\ List.nth 3 (Reader.split_row line) "" = "     inf".
Proof.
  repeat split. eexists. split; vm_compute; reflexivity.
Qed.

(** C5 (as amended).  A finite float [seconds] is rendered with three
    decimal places when it is below [1], with two when it is at least [1]
    and below [10], and with one when it is at least [10]; the field of a
    data line is that text, escaped to the width eight.  [0.5] gives
    [0.500], [5.25] gives [5.25] and [12.34] gives [12.3].  A text is
    left as it is before escaping. *)
Theorem finite_seconds_are_rendered_by_magnitude (x : spec_float) :
  PyFloat.finite x = true ->
  exists text : string,
    format_seconds (VFloat x) = VStr text
    /\ (PyFloat.lt_int x 1 = true ->
        text = PyFloat.format_f 3 x /\ Reader.has_decimals 3 text = true)
    /\ (PyFloat.ge_int x 1 = true -> PyFloat.lt_int x 10 = true ->
        text = PyFloat.format_f 2 x /\ Reader.has_decimals 2 text = true)
    /\ (PyFloat.ge_int x 10 = true ->
        text = PyFloat.format_f 1 x /\ Reader.has_decimals 1 text = true)
    /\ (forall (r : row) (line : string),
          is_header r = false -> seconds r = VFloat x ->
          snd (csv_line r) = inr line ->
          List.nth 3 (Reader.split_row line) "" = escape_csv (VStr text) (Some 8))
    /\ (forall t : string, format_seconds (VStr t) = VStr t)
    /\ format_seconds (VFloat Sample.half) = VStr "0.500"
    /\ format_seconds (VFloat Sample.five_25) = VStr "5.25"
    /\ format_seconds (VFloat Sample.twelve_34) = VStr "12.3"
    /\ escape_csv (format_seconds (VFloat Sample.half)) (Some 8) = "   0.500".
Proof.
  intros Hx.
  assert (Hrow : forall text, format_seconds (VFloat x) = VStr text ->
    forall (r : row) (line : string),
      is_header r = false -> seconds r = VFloat x ->
      snd (csv_line r) = inr line ->
      List.nth 3 (Reader.split_row line) "" = escape_csv (VStr text) (Some 8)).
  { intros text Ht r line Hh Hs Hl.
    destruct (csv_line_fields r line Hh Hl) as [Hf _].
    rewrite Hf, Hs, Ht. reflexivity. }
  unfold format_seconds in *.
  destruct (PyFloat.lt_int x 1) eqn:H1;
    [|destruct (PyFloat.lt_int x 10) eqn:H10].
  - exists (PyFloat.format_f 3 x). repeat split; try (apply Hrow; reflexivity).
    + apply format_f_has_decimals; [lia | exact Hx].
    + apply ge_int_lt_int in H. congruence.
    + apply ge_int_lt_int in H. congruence.
    + apply ge_int_lt_int in H.
      pose proof (lt_int_mono x 1 10 ltac:(lia) H1). congruence.
    + apply ge_int_lt_int in H.
      pose proof (lt_int_mono x 1 10 ltac:(lia) H1). congruence.
  - exists (PyFloat.format_f 2 x). repeat split; try (apply Hrow; reflexivity);
      try discriminate.
    + apply format_f_has_decimals; [lia | exact Hx].
    + apply ge_int_lt_int in H. congruence.
    + apply ge_int_lt_int in H. congruence.
  - exists (PyFloat.format_f 1 x). repeat split; try (apply Hrow; reflexivity);
      try discriminate.
    apply format_f_has_decimals; [lia | exact Hx].
Qed.

Lemma finite_seconds_are_rendered_by_magnitude_witness :
  PyFloat.finite Sample.twelve_34 = true
  /\ PyFloat.ge_int Sample.twelve_34 10 = true
  /\ exists text : string,
       format_seconds (VFloat Sample.twelve_34) = VStr text
       /\ text = PyFloat.format_f 1 Sample.twelve_34
       /\ Reader.has_decimals 1 text = true.
Proof.
  split; [reflexivity|]. split; [reflexivity|].
  destruct (finite_seconds_are_rendered_by_magnitude Sample.twelve_34 eq_refl)
    as (text & Ht & _ & _ & H & _).
  exists text. split; [exact Ht|]. exact (H eq_refl).
Defined.

(** ** Worked values *)

Example sample_floats :
  PyFloat.of_ratio 1 2 = Sample.half
  /\ PyFloat.of_ratio 525 100 = Sample.five_25
  /\ PyFloat.of_ratio 1234 100 = Sample.twelve_34
  /\ PyFloat.of_ratio 3 1 = Sample.three
  /\ PyFloat.valid Sample.twelve_34 = true
  /\ PyFloat.repr Sample.twelve_34 = "12.34"
  /\ PyFloat.repr Sample.three = "3.0"
  /\ PyFloat.repr (PyFloat.of_ratio 1 10) = "0.1"
  /\ PyFloat.repr (PyFloat.of_ratio 1 100000) = "1e-05".
Proof. vm_compute. repeat split. Qed.

Example non_finite_seconds :
  format_seconds (VFloat (S754_infinity true)) = VStr "-inf"
  /\ format_seconds (VFloat S754_nan) = VStr "nan"
  /\ Reader.has_decimals 3 "-inf" = false
  /\ Reader.has_decimals 1 "nan" = false
  /\ escape_csv (format_seconds (VFloat S754_nan)) (Some 8) = "     nan".
Proof. repeat split. Qed.

Example strip_example :
  Str.strip ("  a b " ++ Csv.line_terminator) = "a b"
  /\ Str.rjust "abc" 5 = "  abc"
  /\ Str.rjust "abcdef" 5 = "abcdef"
  /\ Str.of_Z (-1203) = "-1203"
  /\ Str.of_Z 0 = "0".
Proof. repeat split. Qed.

Example int_example :
  PyInt.int (VStr " 1_000 ") = inr 1000
  /\ PyInt.int (VStr "1__0") = inl ValueError
  /\ PyInt.int (VFloat Sample.three) = inr 3
  /\ PyInt.int (VFloat Sample.twelve_34) = inr 12
  /\ PyInt.int (VFloat Sample.infinity) = inl OverflowError
  /\ PyInt.int (VFloat S754_nan) = inl ValueError
  /\ PyInt.int VNone = inl TypeError.
Proof. vm_compute. repeat split. Qed.

Example errors_example :
  Json.dumps Sample.errors_by_kind
  = "{" ++ Sample.q "mismatch" ++ ":1," ++ Sample.q "timeout" ++ ":2}".
Proof. reflexivity. Qed.

Example data_line_example :
  csv_line Sample.no_counts
  = (VDict [],
     inr ("      1000,"
          ++ Csv.quote_field (Json.dumps Sample.errors_by_kind)
          ++ ",         0,    12.3,pymatching,abc123,"
          ++ Csv.quote_field (Json.dumps Sample.metadata) ++ ",")).
Proof. vm_compute. reflexivity. Qed.

(** * Further properties of [escape_csv] *)

Section EscapeMore.

Lemma spaces_scan_len (n : nat) (s : string) :
  Str.len (Str.spaces n ++ s) = Z.of_nat n + Str.len s.
Proof. unfold Str.len. rewrite length_app, spaces_length. lia. Qed.

(** X1.  A width never cuts the field: with a width the result is the
    unpadded field after as many spaces as it lacks, so its length is the
    larger of the width and the length of the unpadded field. *)
Theorem escape_csv_width (v : pyval) (w : Z) :
  Str.len (escape_csv v (Some w)) = Z.max w (Str.len (escape_csv v None))
  /\ exists n : nat,
       escape_csv v (Some w) = Str.spaces n ++ escape_csv v None
       /\ Z.of_nat n = Z.max 0 (w - Str.len (escape_csv v None)).
Proof.
  rewrite escape_csv_Some. unfold Str.rjust. split.
  - rewrite spaces_scan_len. unfold Str.len. lia.
  - eexists. split; [reflexivity|]. unfold Str.len. lia.
Qed.

Lemma rstrip_head (c : ascii) (r : string) :
  Str.is_space c = false -> exists r', Str.rstrip (String c r) = String c r'.
Proof.
  intros H. cbn [Str.rstrip]. destruct (Str.rstrip r); [rewrite H|]; eauto.
Qed.

Lemma lstrip_head (s : string) :
  Str.lstrip s = ""
  \/ exists c r, Str.lstrip s = String c r /\ Str.is_space c = false.
Proof.
  induction s as [|c s IH]; cbn [Str.lstrip]; [now left|].
  destruct (Str.is_space c) eqn:E; [exact IH|]. right. eauto.
Qed.

(** A stripped text is empty or starts with a character that is not white
    space. *)
Lemma strip_head (s : string) :
  Str.strip s = ""
  \/ exists c r, Str.strip s = String c r /\ Str.is_space c = false.
Proof.
  unfold Str.strip. destruct (lstrip_head s) as [-> | (c & r & -> & Hc)].
  - now left.
  - right. destruct (rstrip_head c r Hc) as [r' ->]. eauto.
Qed.

Lemma rstrip_idem (s : string) : Str.rstrip (Str.rstrip s) = Str.rstrip s.
Proof.
  induction s as [|c s IH]; [reflexivity|]. cbn [Str.rstrip].
  destruct (Str.rstrip s) as [|d t] eqn:E.
  - destruct (Str.is_space c) eqn:Hc; [reflexivity|].
    cbn [Str.rstrip]. now rewrite Hc.
  - change (Str.rstrip (String c (String d t)))
      with (match Str.rstrip (String d t) with
            | EmptyString =>
                if Str.is_space c then EmptyString else String c EmptyString
            | r' => String c r'
            end).
    now rewrite IH.
Qed.

Lemma strip_idem (s : string) : Str.strip (Str.strip s) = Str.strip s.
Proof.
  destruct (strip_head s) as [E | (c & r & E & Hc)].
  - now rewrite E.
  - unfold Str.strip at 1. rewrite E, (lstrip_stop c r Hc), <- E.
    apply rstrip_idem.
Qed.

(** X2.  Without a width the result has no white space at either end:
    stripping it again, on the left or on the right, changes nothing. *)
Theorem escape_csv_is_stripped (v : pyval) :
  Str.strip (escape_csv v None) = escape_csv v None
  /\ Str.lstrip (escape_csv v None) = escape_csv v None
  /\ Str.rstrip (escape_csv v None) = escape_csv v None.
Proof.
  assert (H : Str.strip (escape_csv v None) = escape_csv v None).
  { rewrite escape_csv_None. cbv zeta.
    destruct (Csv.needs_quote (Csv.field_text v) || String.eqb (Csv.field_text v) "").
    - apply strip_quoted.
    - apply strip_idem. }
  split; [exact H|].
  destruct (strip_head (escape_csv v None)) as [E | (c & r & E & Hc)];
    rewrite H in E.
  - rewrite E. split; reflexivity.
  - split.
    + rewrite E. now apply lstrip_stop.
    + unfold Str.strip in H. rewrite E in H.
      rewrite (lstrip_stop c r Hc) in H. now rewrite E.
Qed.

Lemma skip_padding_text (n : nat) (u : string) :
  (forall r, u <> String Str.space r) ->
  Reader.skip_padding (Str.spaces n ++ u) = u.
Proof.
  intros H. induction n as [|n IH]; [|exact IH].
  destruct u as [|c r]; [reflexivity|].
  cbn [Str.spaces String.append Reader.skip_padding].
  destruct (Ascii.eqb_spec c Str.space) as [->|]; [now destruct (H r) | reflexivity].
Qed.

Lemma unescape_plain (u : string) :
  Str.mem Str.dquote u = false -> Reader.unescape_field u = u.
Proof.
  destruct u as [|c r]; [reflexivity|]. cbn [Str.mem Reader.unescape_field].
  intros H. apply orb_false_elim in H as [H _].
  now rewrite Ascii.eqb_sym, H.
Qed.

(** X3.  What a reader gets back from an escaped text, once it has
    skipped the padding and unescaped the field: the text itself when it
    has a comma, a quote or a line break, and the text stripped of the
    white space around it otherwise. *)
Theorem reading_back_gives_the_stripped_text (t : string) (width : option Z) :
  Reader.unescape_field (Reader.skip_padding (escape_csv (VStr t) width))
  = if Csv.needs_quote t then t else Str.strip t.
Proof.
  destruct (escape_csv_padding (VStr t) width) as [n ->].
  rewrite escape_csv_None. cbn [Csv.field_text]. cbv zeta.
  destruct (Csv.needs_quote t) eqn:Hq; cbn [orb].
  - rewrite skip_padding_spaces. apply unescape_quote_field.
  - destruct (String.eqb_spec t "") as [->|Ht].
    + rewrite skip_padding_spaces. apply unescape_quote_field.
    + apply needs_quote_false in Hq as [_ Hd].
      rewrite skip_padding_text.
      * apply unescape_plain. now apply mem_strip.
      * intros r E. destruct (strip_head t) as [E' | (c & r' & E' & Hc)];
          rewrite E in E'; [discriminate|].
        injection E' as <- _. discriminate Hc.
Qed.

End EscapeMore.

(** * Further properties of [csv_line] *)

Section LineMore.

Local Open Scope list_scope.


Lemma csv_line_dict_value (r : row) (d : dict) :
  is_header r = false -> custom_counts r = VDict d -> d <> [] ->
  csv_line r =
  match Counts.coerce_dict (List.map fst d) d with
  | (d', inl e) => (VDict d', inl e)
  | (d', inr _) =>
      (VDict d',
       inr (Lines.leading r (VStr (Json.dumps (json_metadata r))) ++ ","
            ++ escape_csv (VStr (Json.dumps (VDict d'))) None)%string)
  end.
Proof.
  intros Hh Hc Hd. unfold csv_line, preformat, Lines.leading.
  rewrite Hh, Hc. cbn [negb].
  assert (Ht : PyStr.truthy (VDict d) = true)
    by (destruct d; [congruence | reflexivity]).
  rewrite Ht. cbn [Counts.coerce].
  destruct (Counts.coerce_dict (List.map fst d) d) as [d' [e|[]]];
    [reflexivity|].
  cbn [PyStr.str]. rewrite !app_assoc. reflexivity.
Qed.

Lemma csv_line_no_counts_value (r : row) :
  is_header r = false -> PyStr.truthy (custom_counts r) = false ->
  csv_line r =
  (custom_counts r,
   inr (Lines.leading r (VStr (Json.dumps (json_metadata r))) ++ "," ++ "")%string).
Proof.
  intros Hh Ht. unfold csv_line, preformat, Lines.leading.
  rewrite Hh, Ht. cbn [negb PyStr.str]. rewrite !app_assoc. reflexivity.
Qed.




Lemma coerced_entries_shape (d d' : dict) :
  Forall2 Counts.coerced_to d d' ->
  List.map fst d' = List.map fst d
  /\ Forall (fun kv => exists n, snd kv = VInt n) d'.
Proof.
  induction 1 as [|kv kv' t t' (Hk & n & _ & Hv) _ [IHk IHv]]; cbn.
  - split; [reflexivity | constructor].
  - split; [now rewrite Hk, IHk|]. constructor; [eauto | exact IHv].
Qed.

(** X7.  Calling again with the mapping that a successful data call left
    behind returns the same line and leaves the mapping as it is: the
    coercion changes nothing the second time. *)
Theorem second_call_gives_the_same_line (r : row) (d : dict) (line : string) :
  is_header r = false ->
  custom_counts r = VDict d ->
  NoDup (List.map fst d) ->
  snd (csv_line r) = inr line ->
  csv_line (Lines.with_counts r (fst (csv_line r)))
  = (fst (csv_line r), inr line).
Proof.
  intros Hh Hc Hn Hl.
  destruct d as [|kv d0].
  { assert (Ht : PyStr.truthy (custom_counts r) = false) by now rewrite Hc.
    rewrite (csv_line_no_counts_value r Hh Ht) in Hl |- *.
    cbn [fst snd] in *. injection Hl as <-.
    rewrite Hc.
    exact (csv_line_no_counts_value (Lines.with_counts r (VDict [])) Hh eq_refl). }
  assert (Hd : kv :: d0 <> []) by discriminate.
  pose proof (csv_line_dict_value r _ Hh Hc Hd) as Hv.
  rewrite (coerce_dict_entries _ Hn) in Hv.
  pose proof (coerce_entries_done (kv :: d0)) as Hdone.
  destruct (Counts.coerce_entries (kv :: d0)) as [d' [e|[]]]; cbn [fst snd] in *;
    rewrite Hv in Hl |- *; cbn [fst snd] in *; [discriminate|].
  injection Hl as <-.
  destruct (coerced_entries_shape _ _ (Hdone eq_refl)) as [Hk Hi].
  assert (Hd' : d' <> []).
  { intros ->. cbn in Hk. discriminate. }
  assert (Hn' : NoDup (List.map fst d')) by now rewrite Hk.
  rewrite (csv_line_dict_value (Lines.with_counts r (VDict d')) d' Hh eq_refl Hd').
  rewrite (coerce_dict_entries _ Hn'), (coerce_entries_ints _ Hi).
  reflexivity.
Qed.

Lemma second_call_gives_the_same_line_witness :
  is_header Sample.full = false
  /\ custom_counts Sample.full = VDict Sample.counts
  /\ NoDup (List.map fst Sample.counts)
  /\ exists line,
       snd (csv_line Sample.full) = inr line
       /\ csv_line (Lines.with_counts Sample.full (fst (csv_line Sample.full)))
          = (fst (csv_line Sample.full), inr line).
Proof.
  split; [reflexivity|]. split; [reflexivity|].
  assert (Hn : NoDup (List.map fst Sample.counts)).
  { cbn. repeat constructor; cbn; intuition discriminate. }
  split; [exact Hn|].
  assert (exists line, snd (csv_line Sample.full) = inr line) as [line Hl]
    by (eexists; vm_compute; reflexivity).
  exists line. split; [exact Hl|].
  exact (second_call_gives_the_same_line
           Sample.full Sample.counts line eq_refl eq_refl Hn Hl).
Defined.

End LineMore.

(** * Line breaks, column widths and numbers *)

Section BreakFacts.

Lemma breaks_from_app (q q' : bool) (a b : string) :
  Reader.scan q a = Some q' ->
  Lines.breaks_from q (a ++ b)
  = (Lines.breaks_from q a + Lines.breaks_from q' b)%nat.
Proof.
  revert q; induction a as [|x a IH]; intros q;
    cbn [String.append Reader.scan Lines.breaks_from].
  - now intros [= ->].
  - destruct (Ascii.eqb x Str.dquote); [apply IH|].
    destruct (Ascii.eqb x Str.comma && negb q); [discriminate|].
    intros H. rewrite (IH _ H).
    destruct ((Ascii.eqb x Str.CR || Ascii.eqb x Str.LF) && negb q); reflexivity.
Qed.

Lemma breaks_from_plain (q : bool) (s : string) :
  Str.mem Str.dquote s = false -> Str.mem Str.CR s = false ->
  Str.mem Str.LF s = false -> Lines.breaks_from q s = O.
Proof.
  induction s as [|x s IH]; cbn [Str.mem Lines.breaks_from]; [reflexivity|].
  intros Hq Hr Hl.
  apply orb_false_elim in Hq as [Hq1 Hq2].
  apply orb_false_elim in Hr as [Hr1 Hr2].
  apply orb_false_elim in Hl as [Hl1 Hl2].
  rewrite (Ascii.eqb_sym x Str.dquote), Hq1, (Ascii.eqb_sym x Str.CR), Hr1,
    (Ascii.eqb_sym x Str.LF), Hl1.
  cbn [orb andb]. auto.
Qed.

Lemma breaks_from_spaces (q : bool) (n : nat) :
  Lines.breaks_from q (Str.spaces n) = O.
Proof. induction n; [reflexivity | exact IHn]. Qed.

Lemma breaks_from_double_quotes (t r : string) :
  Lines.breaks_from true (Csv.double_quotes t ++ r) = Lines.breaks_from true r.
Proof.
  induction t as [|x t IH]; [reflexivity|]. cbn [Csv.double_quotes].
  destruct (Ascii.eqb x Str.dquote) eqn:E;
    cbn [String.append Lines.breaks_from negb]; rewrite E.
  - cbn [negb]. exact IH.
  - rewrite andb_false_r. exact IH.
Qed.

Lemma breaks_from_quote_field (t : string) :
  Lines.breaks_from false (Csv.quote_field t) = O.
Proof.
  unfold Csv.quote_field, quoted_by.
  change (Lines.breaks_from false
            (String Str.dquote (Csv.double_quotes t ++ String Str.dquote "")))
    with (Lines.breaks_from true (Csv.double_quotes t ++ String Str.dquote "")).
  now rewrite breaks_from_double_quotes.
Qed.

(** A field that [escape_csv] returns has its line breaks inside quotes. *)
Lemma escape_csv_no_bare_break (v : pyval) (w : option Z) :
  Lines.breaks_from false (escape_csv v w) = O.
Proof.
  destruct (escape_csv_padding v w) as [n ->].
  rewrite (breaks_from_app false false) by apply scan_spaces.
  rewrite breaks_from_spaces, escape_csv_None. cbv zeta.
  destruct (Csv.needs_quote (Csv.field_text v)) eqn:Hq; cbn [orb].
  - apply breaks_from_quote_field.
  - destruct (String.eqb (Csv.field_text v) ""); [apply breaks_from_quote_field|].
    rewrite needs_quote_mem in Hq.
    apply orb_false_elim in Hq as [Hq Hl].
    apply orb_false_elim in Hq as [Hq Hr].
    apply orb_false_elim in Hq as [_ Hd].
    cbn [Nat.add]. apply breaks_from_plain; now apply mem_strip.
Qed.

Lemma breaks_from_field_comma (v : pyval) (w : option Z) (b : string) :
  Lines.breaks_from false (escape_csv v w ++ "," ++ b)
  = Lines.breaks_from false b.
Proof.
  rewrite (breaks_from_app false false) by apply escape_csv_is_field.
  now rewrite escape_csv_no_bare_break.
Qed.

End BreakFacts.

(** X8.  No data line has a carriage return or a line feed outside
    quotes: whatever line breaks the values hold end up inside quoted
    fields, so a reader that follows the quotes sees one record. *)
Theorem data_line_has_no_bare_line_break (r : row) (line : string) :
  is_header r = false ->
  snd (csv_line r) = inr line ->
  Lines.bare_breaks line = O.
Proof.
  intros Hh Hl. rewrite (csv_line_data r line Hh Hl).
  unfold Lines.bare_breaks. rewrite !breaks_from_field_comma.
  destruct (PyStr.truthy (custom_counts r));
    [apply escape_csv_no_bare_break | reflexivity].
Qed.

Lemma data_line_has_no_bare_line_break_witness :
  is_header Sample.full = false
  /\ exists line, snd (csv_line Sample.full) = inr line
                  /\ Lines.bare_breaks line = O.
Proof.
  split; [reflexivity|].
  assert (exists line, snd (csv_line Sample.full) = inr line) as [line Hl]
    by (eexists; vm_compute; reflexivity).
  exists line. split; [exact Hl|].
  exact (data_line_has_no_bare_line_break Sample.full line eq_refl Hl).
Defined.

(** X9.  In every data line the first three fields are at least ten
    characters long and the fourth at least eight: each is as long as the
    larger of its width and its unpadded text. *)
Theorem leading_columns_are_padded (r : row) (line : string) :
  is_header r = false ->
  snd (csv_line r) = inr line ->
  Str.len (List.nth 0 (Reader.split_row line) "")
    = Z.max 10 (Str.len (escape_csv (shots r) None))
  /\ Str.len (List.nth 1 (Reader.split_row line) "")
    = Z.max 10 (Str.len (escape_csv (format_errors (errors r)) None))
  /\ Str.len (List.nth 2 (Reader.split_row line) "")
    = Z.max 10 (Str.len (escape_csv (discards r) None))
  /\ Str.len (List.nth 3 (Reader.split_row line) "")
    = Z.max 8 (Str.len (escape_csv (format_seconds (seconds r)) None)).
Proof.
  intros Hh Hl. destruct (csv_line_fields r line Hh Hl) as [Hf _].
  rewrite Hf. cbn [List.nth].
  repeat split; apply escape_csv_width.
Qed.

Lemma leading_columns_are_padded_witness :
  is_header Sample.full = false
  /\ exists line, snd (csv_line Sample.full) = inr line
                  /\ Str.len (List.nth 0 (Reader.split_row line) "")
                     = Z.max 10 (Str.len (escape_csv (shots Sample.full) None)).
Proof.
  split; [reflexivity|].
  assert (exists line, snd (csv_line Sample.full) = inr line) as [line Hl]
    by (eexists; vm_compute; reflexivity).
  exists line. split; [exact Hl|].
  exact (proj1 (leading_columns_are_padded Sample.full line eq_refl Hl)).
Defined.

Section NumberFacts.

Lemma rstrip_fixed (s : string) (d : ascii) :
  Str.last_char s = Some d -> Str.is_space d = false -> Str.rstrip s = s.
Proof.
  induction s as [|c r IH]; [discriminate|].
  destruct r as [|c' r'].
  - cbn. intros [= ->] H. now rewrite H.
  - change (Str.last_char (String c (String c' r')))
      with (Str.last_char (String c' r')).
    intros Hl Hd. specialize (IH Hl Hd).
    change (Str.rstrip (String c (String c' r')))
      with (match Str.rstrip (String c' r') with
            | EmptyString =>
                if Str.is_space c then EmptyString else String c EmptyString
            | t => String c t
            end).
    now rewrite IH.
Qed.

(** A text with no comma, quote or line break and no white space at
    either end is escaped to itself. *)
Lemma escape_csv_plain (v : pyval) (c : ascii) (r : string) (d : ascii) :
  Csv.field_text v = String c r ->
  Csv.needs_quote (String c r) = false ->
  Str.is_space c = false ->
  Str.last_char (String c r) = Some d -> Str.is_space d = false ->
  escape_csv v None = String c r.
Proof.
  intros Ht Hq Hc Hl Hd. rewrite escape_csv_None, Ht. cbv zeta. rewrite Hq.
  replace (String.eqb (String c r) "") with false
    by (symmetry; now apply String.eqb_neq).
  cbn [orb]. unfold Str.strip. rewrite (lstrip_stop c r Hc).
  exact (rstrip_fixed _ d Hl Hd).
Qed.

Lemma is_digit_plain (c : ascii) :
  Str.is_digit c = true -> Csv.special c = false /\ Str.is_space c = false.
Proof.
  intros H. unfold Csv.special.
  destruct (Ascii.eqb_spec c Str.comma) as [->|]; [discriminate|].
  destruct (Ascii.eqb_spec c Str.dquote) as [->|]; [discriminate|].
  destruct (Ascii.eqb_spec c Str.CR) as [->|]; [discriminate|].
  destruct (Ascii.eqb_spec c Str.LF) as [->|]; [discriminate|].
  split; [reflexivity|].
  unfold Str.is_digit in H. unfold Str.is_space.
  apply andb_prop in H as [H1 H2].
  apply Z.leb_le in H1. apply Z.leb_le in H2.
  repeat match goal with
         | |- context [?a <=? ?b] => destruct (Z.leb_spec a b); try lia
         | |- context [?a =? ?b] => destruct (Z.eqb_spec a b); try lia
         end; reflexivity.
Qed.

Lemma needs_quote_app (a b : string) :
  Csv.needs_quote (a ++ b) = Csv.needs_quote a || Csv.needs_quote b.
Proof.
  induction a as [|x a IH]; [reflexivity|].
  cbn [String.append Csv.needs_quote]. now rewrite IH, orb_assoc.
Qed.

Lemma needs_quote_digits (s : string) :
  Reader.all_digits s = true -> Csv.needs_quote s = false.
Proof.
  induction s as [|c s IH]; [reflexivity|].
  cbn [Reader.all_digits Csv.needs_quote]. intros H.
  apply andb_prop in H as [Hc Hs].
  destruct (is_digit_plain c Hc) as [-> _]. now apply IH.
Qed.

Lemma last_char_digits (s : string) (c : ascii) :
  Reader.all_digits s = true -> Str.last_char s = Some c ->
  Str.is_digit c = true.
Proof.
  induction s as [|x s IH]; [discriminate|].
  cbn [Reader.all_digits]. intros H. apply andb_prop in H as [Hx Hs].
  destruct s as [|y s'].
  - cbn. now intros [= <-].
  - change (Str.last_char (String x (String y s')))
      with (Str.last_char (String y s')). now apply IH.
Qed.

Lemma last_char_some (c : ascii) (r : string) :
  exists d, Str.last_char (String c r) = Some d.
Proof.
  revert c; induction r as [|c' r IH]; intros c; [now exists c|].
  destruct (IH c') as [d Hd]. exists d. exact Hd.
Qed.

(** [str(n)]: a minus sign or a digit first, a digit last, digits
    between. *)
Lemma of_Z_shape (n : Z) :
  exists c r d,
    Str.of_Z n = String c r
    /\ Csv.needs_quote (String c r) = false
    /\ Str.is_space c = false
    /\ Str.last_char (String c r) = Some d
    /\ Str.is_space d = false.
Proof.
  unfold Str.of_Z.
  destruct (of_nat_Z_head (if n <? 0 then - n else n)) as (c & r & Hi & Hc).
  pose proof (of_nat_Z_all_digits (if n <? 0 then - n else n)) as Hd.
  rewrite Hi in Hd.
  destruct (last_char_some c r) as [d Hl].
  pose proof (last_char_digits _ _ Hd Hl) as Hdd.
  destruct (n <? 0).
  - rewrite Hi. exists "-"%char, (String c r), d.
    repeat split.
    + change (Csv.needs_quote (String "-" (String c r)))
        with (Csv.special "-" || Csv.needs_quote (String c r)).
      now rewrite (needs_quote_digits _ Hd).
    + exact Hl.
    + now apply is_digit_plain.
  - rewrite Hi. exists c, r, d. repeat split.
    + now apply needs_quote_digits.
    + now apply is_digit_plain.
    + exact Hl.
    + now apply is_digit_plain.
Qed.

(** The text of a finite float with places after the point has the same
    shape, with a point between digits. *)
Lemma format_f_shape (p : nat) (x : spec_float) :
  (1 <= p)%nat -> PyFloat.finite x = true ->
  exists c r d,
    PyFloat.format_f p x = String c r
    /\ Csv.needs_quote (String c r) = false
    /\ Str.is_space c = false
    /\ Str.last_char (String c r) = Some d
    /\ Str.is_space d = false.
Proof.
  intros Hp Hx.
  assert (H : exists s n, 0 <= n
              /\ PyFloat.format_f p x
                 = PyFloat.sign_text s ++ PyFloat.fixed_digits p n).
  { destruct x as [s|s| |s m e]; try discriminate; cbn [PyFloat.format_f].
    - exists s, 0. split; [lia | reflexivity].
    - exists s, (PyFloat.scaled_round p m e).
      split; [apply scaled_round_nonneg | reflexivity]. }
  destruct H as (s & n & Hn & ->).
  destruct p as [|p']; [lia|]. set (p := S p') in *.
  assert (Hpow : 0 < 10 ^ Z.of_nat p) by (apply Z.pow_pos_nonneg; lia).
  destruct (zfill_digits p (n mod 10 ^ Z.of_nat p) Hp
              (Z.mod_pos_bound _ _ Hpow)) as [Hfd Hfl].
  destruct (of_nat_Z_head (n / 10 ^ Z.of_nat p)) as (c & r & Hi & Hc).
  pose proof (of_nat_Z_all_digits (n / 10 ^ Z.of_nat p)) as Hid.
  unfold PyFloat.fixed_digits. subst p. cbv iota.
  set (F := Str.zfill (S p') (n mod 10 ^ Z.of_nat (S p'))) in *.
  set (I := Str.of_nat_Z (n / 10 ^ Z.of_nat (S p'))) in *.
  destruct F as [|f0 F'] eqn:EF; [discriminate Hfl|].
  destruct (last_char_some f0 F') as [d Hl].
  pose proof (last_char_digits _ _ Hfd Hl) as Hdd.
  assert (Hq : Csv.needs_quote (I ++ String "." (String f0 F')) = false).
  { rewrite needs_quote_app, (needs_quote_digits _ Hid).
    change (Csv.needs_quote (String "." (String f0 F')))
      with (Csv.special "." || Csv.needs_quote (String f0 F')).
    now rewrite (needs_quote_digits _ Hfd). }
  assert (Hlast : forall a, Str.last_char (a ++ String "." (String f0 F')) = Some d).
  { intros a. rewrite last_char_app_cons.
    change (Str.last_char (String "." (String f0 F')))
      with (Str.last_char (String f0 F')). exact Hl. }
  destruct s; cbn [PyFloat.sign_text String.append].
  - exists "-"%char, (I ++ String "." (String f0 F')), d. repeat split.
    + change (Csv.needs_quote (String "-" (I ++ String "." (String f0 F'))))
        with (Csv.special "-"
              || Csv.needs_quote (I ++ String "." (String f0 F'))).
      now rewrite Hq.
    + change (String "-" (I ++ String "." (String f0 F')))
        with (String "-" I ++ String "." (String f0 F')). apply Hlast.
    + now apply is_digit_plain.
  - rewrite Hi in *. cbn [String.append] in *.
    exists c, (r ++ String "." (String f0 F')), d. repeat split.
    + exact Hq.
    + now apply is_digit_plain.
    + change (String c (r ++ String "." (String f0 F')))
        with (String c r ++ String "." (String f0 F')). apply Hlast.
    + now apply is_digit_plain.
Qed.

End NumberFacts.

(** X10.  An integer is written as its decimal text, unchanged by the
    escaping and padded on the left to the width; so in a data line an
    integer [shots], [errors] or [discards] is its digits right-justified
    in ten columns. *)
Theorem integers_are_right_justified (n : Z) :
  escape_csv (VInt n) None = Str.of_Z n
  /\ (forall w : Z, escape_csv (VInt n) (Some w) = Str.rjust (Str.of_Z n) w)
  /\ (forall (r : row) (line : string),
        is_header r = false -> snd (csv_line r) = inr line ->
        (shots r = VInt n ->
         List.nth 0 (Reader.split_row line) "" = Str.rjust (Str.of_Z n) 10)
        /\ (errors r = VInt n ->
            List.nth 1 (Reader.split_row line) "" = Str.rjust (Str.of_Z n) 10)
        /\ (discards r = VInt n ->
            List.nth 2 (Reader.split_row line) "" = Str.rjust (Str.of_Z n) 10)).
Proof.
  assert (E : escape_csv (VInt n) None = Str.of_Z n).
  { destruct (of_Z_shape n) as (c & r & d & Ht & Hq & Hc & Hl & Hd).
    rewrite Ht. now apply (escape_csv_plain (VInt n) c r d). }
  assert (Ew : forall w, escape_csv (VInt n) (Some w) = Str.rjust (Str.of_Z n) w)
    by (intros w; now rewrite escape_csv_Some, E).
  split; [exact E|]. split; [exact Ew|].
  intros r line Hh Hl. destruct (csv_line_fields r line Hh Hl) as [Hf _].
  rewrite Hf. cbn [List.nth].
  repeat split; intros ->; apply Ew.
Qed.

Lemma integers_are_right_justified_witness :
  is_header Sample.full = false
  /\ shots Sample.full = VInt 1000
  /\ exists line, snd (csv_line Sample.full) = inr line
                  /\ List.nth 0 (Reader.split_row line) ""
                     = Str.rjust (Str.of_Z 1000) 10.
Proof.
  split; [reflexivity|]. split; [reflexivity|].
  assert (exists line, snd (csv_line Sample.full) = inr line) as [line Hl]
    by (eexists; vm_compute; reflexivity).
  exists line. split; [exact Hl|].
  exact (proj1 (proj2 (proj2 (integers_are_right_justified 1000))
                  Sample.full line eq_refl Hl) eq_refl).
Defined.

(** X11.  The text of a finite float [seconds] goes through the escaping
    unchanged: the fourth field of a data line is that text
    right-justified in eight columns, and longer when the text is. *)
Theorem finite_seconds_are_right_justified (x : spec_float) :
  PyFloat.finite x = true ->
  exists text : string,
    format_seconds (VFloat x) = VStr text
    /\ escape_csv (VStr text) None = text
    /\ escape_csv (format_seconds (VFloat x)) (Some 8) = Str.rjust text 8
    /\ (forall (r : row) (line : string),
          is_header r = false -> seconds r = VFloat x ->
          snd (csv_line r) = inr line ->
          List.nth 3 (Reader.split_row line) "" = Str.rjust text 8).
Proof.
  intros Hx.
  assert (H : exists p, (1 <= p)%nat
                        /\ format_seconds (VFloat x) = VStr (PyFloat.format_f p x)).
  { unfold format_seconds.
    destruct (PyFloat.lt_int x 1); [exists 3%nat; split; [lia | reflexivity]|].
    destruct (PyFloat.lt_int x 10);
      [exists 2%nat | exists 1%nat]; split; try lia; reflexivity. }
  destruct H as (p & Hp & Hs).
  exists (PyFloat.format_f p x).
  assert (E : escape_csv (VStr (PyFloat.format_f p x)) None = PyFloat.format_f p x).
  { destruct (format_f_shape p x Hp Hx) as (c & r & d & Ht & Hq & Hc & Hl & Hd).
    rewrite Ht. now apply (escape_csv_plain (VStr (String c r)) c r d). }
  assert (E8 : escape_csv (format_seconds (VFloat x)) (Some 8)
               = Str.rjust (PyFloat.format_f p x) 8)
    by now rewrite Hs, escape_csv_Some, E.
  repeat split; try assumption.
  intros r line Hh Hsec Hl. destruct (csv_line_fields r line Hh Hl) as [Hf _].
  rewrite Hf, Hsec. exact E8.
Qed.

Lemma finite_seconds_are_right_justified_witness :
  PyFloat.finite Sample.half = true
  /\ exists text : string,
       format_seconds (VFloat Sample.half) = VStr text
       /\ escape_csv (format_seconds (VFloat Sample.half)) (Some 8)
          = Str.rjust text 8.
Proof.
  split; [reflexivity|].
  destruct (finite_seconds_are_right_justified Sample.half eq_refl)
    as (text & H1 & _ & H3 & _).
  exists text. split; assumption.
Defined.
